(** * Syntax profile synthesis: [styles/src/theme/syntax.ts]

    A shallow embedding of [build_default_syntax], [merge_syntax] and
    [build_syntax], together with what they call: plain JavaScript
    objects and their property operations, the npm package [deepmerge]
    (modelled in full for the options [merge_syntax] passes) and the
    npm package [chroma-js] (an interface: its colour arithmetic is
    floating point and stays a parameter). *)

From Stdlib Require Import String List Bool PrimFloat.
Import ListNotations.
Open Scope string_scope.
Open Scope list_scope.

#[local] Set Warnings "-inexact-float".

(** ** JavaScript values and plain objects *)

(** The fragment of the JavaScript value space that a syntax profile or
    an override holds: [undefined], booleans, strings, arrays and plain
    objects.  A plain object is the list of its own enumerable
    properties in insertion order, the order [Object.keys] reports and
    [forEach] follows; its keys are names (no array index, no
    [__proto__]) and, in a well-formed object, distinct ([wf_obj]). *)
Unset Elimination Schemes.
Inductive value : Type :=
| VUndef : value
| VBool : bool -> value
| VStr : string -> value
| VArr : list value -> value
| VObj : list (string * value) -> value.
Set Elimination Schemes.

Definition obj : Type := list (string * value).

(** A JavaScript number is a binary64 float. *)
Definition number : Type := float.

(** [o[k]] for an own property, [None] when [o] has no own property [k]. *)
Fixpoint get (o : obj) (k : string) : option value :=
  match o with
  | [] => None
  | (k', v) :: o' => if String.eqb k' k then Some v else get o' k
  end.

(** [Object.hasOwnProperty.call(o, k)]. *)
Definition has_own (o : obj) (k : string) : bool :=
  match get o k with Some _ => true | None => false end.

(** [o[k] = v]: an existing property keeps its place, a new one goes last. *)
Fixpoint set_prop (o : obj) (k : string) (v : value) : obj :=
  match o with
  | [] => [(k, v)]
  | (k', v') :: o' =>
      if String.eqb k' k then (k', v) :: o' else (k', v') :: set_prop o' k v
  end.

(** [Object.keys(o)]. *)
Definition object_keys (o : obj) : list string := map fst o.

(** [forEach] over properties, assigning [f k v] to [dest[k]] when it is
    defined; the shape of every property loop below. *)
Definition assign_each (f : string -> value -> option value)
    (props : obj) (dest : obj) : obj :=
  fold_left
    (fun d kv =>
       match f (fst kv) (snd kv) with
       | Some v' => set_prop d (fst kv) v'
       | None => d
       end)
    props dest.

(** Object literal [{ ...spread, k1: v1, ..., kn: vn }]. *)
Definition object_literal (spread : obj) (fields : obj) : obj :=
  assign_each (fun _ v => Some v) fields
    (assign_each (fun _ v => Some v) spread []).

(** [v[k]] for an own property of a plain object. *)
Definition prop (v : value) (k : string) : option value :=
  match v with
  | VObj o => get o k
  | _ => None
  end.

(** [p[category][attribute]], [None] when either step is missing. *)
Definition attr (p : value) (category attribute : string) : option value :=
  match prop p category with
  | Some r => prop r attribute
  | None => None
  end.

Fixpoint mem_string (k : string) (l : list string) : bool :=
  match l with
  | [] => false
  | k' :: l' => String.eqb k' k || mem_string k l'
  end.

Fixpoint distinct (l : list string) : bool :=
  match l with
  | [] => true
  | k :: l' => negb (mem_string k l') && distinct l'
  end.

(** No own key occurs twice. *)
Definition wf_obj (o : obj) : bool := distinct (object_keys o).

(** ** The [deepmerge] package (version 4), as [merge_syntax] calls it *)

Module Deepmerge.

(** Property names every plain object inherits from [Object.prototype]. *)
Definition object_prototype_names : list string :=
  [ "constructor"; "__defineGetter__"; "__defineSetter__"; "hasOwnProperty";
    "__lookupGetter__"; "__lookupSetter__"; "isPrototypeOf";
    "propertyIsEnumerable"; "toString"; "valueOf"; "__proto__";
    "toLocaleString" ].

Definition inherited (k : string) : bool :=
  mem_string k object_prototype_names.

(** [isMergeableObject]: a non-null object that is no RegExp, Date or
    React element; here arrays and plain objects. *)
Definition isMergeableObject (v : value) : bool :=
  match v with
  | VArr _ | VObj _ => true
  | _ => false
  end.

(** [property in object], [false] when [in] throws (a primitive); an
    array is never asked. *)
Definition propertyIsOnObject (object : value) (property : string) : bool :=
  match object with
  | VObj o => has_own o property || inherited property
  | _ => false
  end.

(** On the object but not as an own enumerable property. *)
Definition propertyIsUnsafe (target : value) (key : string) : bool :=
  propertyIsOnObject target key
  && negb (match target with VObj o => has_own o key | _ => false end).

(** [emptyTarget(val)]. *)
Definition emptyTarget (val : value) : value :=
  match val with
  | VArr _ => VArr []
  | _ => VObj []
  end.

Section WithOptions.

(** [options.arrayMerge]. *)
Variable arrayMerge : list value -> list value -> list value.

(** [cloneUnlessOtherwiseSpecified(value, options)], that is
    [deepmerge(emptyTarget(value), value, options)] on a mergeable
    value ([clone_is_deepmerge] below) and the value itself otherwise. *)
Fixpoint clone (v : value) : value :=
  match v with
  | VArr l => VArr (arrayMerge [] l)
  | VObj props =>
      VObj (assign_each
              (fun key v' =>
                 if propertyIsUnsafe (VObj []) key then None
                 else Some (clone v'))
              props [])
  | _ => v
  end.

(** The first loop of [mergeObject]: copy the target's properties
    into the fresh [destination]. *)
Definition copy_target (target : value) : obj :=
  match target with
  | VObj t => assign_each (fun _ v => Some (clone v)) t []
  | _ => []
  end.

(** [target[key]]. *)
Definition target_prop (target : value) (key : string) : value :=
  match prop target key with Some v => v | None => VUndef end.

(** [deepmerge(target, source, options)]; the object case is
    [mergeObject].  [merge_syntax] passes an object as [source], and
    [mergeObject] recurses only into a mergeable [source[key]], so
    the last branch is there for totality only. *)
Fixpoint deepmerge (target source : value) : value :=
  match source with
  | VArr s =>
      match target with
      | VArr t => VArr (arrayMerge t s)
      | _ => clone source
      end
  | VObj s =>
      match target with
      | VArr _ => clone source
      | _ =>
          VObj (assign_each
                  (fun key v =>
                     if propertyIsUnsafe target key then None
                     else if propertyIsOnObject target key
                             && isMergeableObject v
                     then Some (deepmerge (target_prop target key) v)
                     else Some (clone v))
                  s (copy_target target))
      end
  | _ => source
  end.

(** [mergeObject(target, source, options)]. *)
Definition mergeObject (target : value) (source : obj) : obj :=
  assign_each
    (fun key v =>
       if propertyIsUnsafe target key then None
       else if propertyIsOnObject target key && isMergeableObject v
       then Some (deepmerge (target_prop target key) v)
       else Some (clone v))
    source (copy_target target).

End WithOptions.

End Deepmerge.

(** ** External collaborators of the builder *)

(** The part of [chroma-js] the builder uses: colour objects, their
    [hex()] rendering, and [chroma.mix(color1, color2, ratio, mode)].
    The arithmetic behind them is the library's (floating point); the
    builder only routes values through it. *)
Class Chroma : Type := {
  Color : Type;
  hex : Color -> string;
  mix : string -> string -> number -> string -> Color
}.

(** Modelled from the spec: [font_weights] of [../common], of which the
    builder reads [bold]; a font weight is its name. *)
Module font_weights.
Definition normal : string := "normal".
Definition bold : string := "bold".
End font_weights.

Section ColorSchemes.

Context {chroma : Chroma}.

(** A colour ramp ([chroma.Scale]): lightness to colour. *)
Definition Scale : Type := number -> Color.

(** Modelled from the spec: the ramp set of [./color_scheme], with the
    ramps the spec names. *)
Record RampSet : Type := {
  neutral : Scale;
  blue : Scale;
  orange : Scale;
  green : Scale;
  cyan : Scale;
  yellow : Scale
}.

(** Modelled from the spec: [ColorScheme] of [./color_scheme], its ramps
    and its optional [syntax] override ([None] is [undefined]). *)
Record ColorScheme : Type := {
  ramps : RampSet;
  syntax : option obj
}.

End ColorSchemes.

(** ** [syntax.ts] *)

(** The members of [interface Syntax] without [?]. *)
Definition required_categories : list string :=
  [ "comment"; "comment.doc"; "primary"; "predictive";
    "emphasis"; "emphasis.strong"; "title"; "link_uri"; "link_text";
    "text.literal";
    "punctuation"; "punctuation.bracket"; "punctuation.delimiter";
    "punctuation.special"; "punctuation.list_marker";
    "string"; "string.special";
    "constructor"; "variant"; "type";
    "variable"; "label"; "tag"; "attribute"; "property"; "constant";
    "keyword"; "enum"; "operator"; "number"; "boolean";
    "function";
    "preproc"; "embedded" ].

(** The members of [interface Syntax] declared with [?]. *)
Definition optional_categories : list string :=
  [ "string.special.symbol"; "string.escape"; "string.regex";
    "type.builtin"; "variable.special"; "constant.builtin";
    "function.builtin"; "function.definition";
    "function.special.definition"; "function.method";
    "function.method.builtin" ].

(** The closed set of [Syntax] keys. *)
Definition syntax_categories : list string :=
  required_categories ++ optional_categories.

Definition default_syntax_highlight_style : obj :=
  [ ("weight", VStr font_weights.normal);
    ("underline", VBool false);
    ("italic", VBool false) ].

Section Builder.

Context {chroma : Chroma}.

Definition build_default_syntax (color_scheme : ColorScheme) : value :=
  (* [{} as Syntax] is the empty object at run time: the cast is erased *)
  let syntax0 : obj :=
    fold_left
      (fun syntax_ key =>
         set_prop syntax_ key
           (VObj (object_literal default_syntax_highlight_style [])))
      (object_keys [])
      [] in
  let predictive : string :=
    hex (mix (hex (neutral (ramps color_scheme) 0.4%float))
             (hex (blue (ramps color_scheme) 0.4%float))
             0.45%float
             "lch") in
  let color_primary := hex (neutral (ramps color_scheme) 1%float) in
  let color_comment := hex (neutral (ramps color_scheme) 0.71%float) in
  let color_punctuation := hex (neutral (ramps color_scheme) 0.86%float) in
  let color_predictive := predictive in
  let color_emphasis := hex (blue (ramps color_scheme) 0.5%float) in
  let color_string := hex (orange (ramps color_scheme) 0.5%float) in
  let color_function := hex (yellow (ramps color_scheme) 0.5%float) in
  let color_type := hex (cyan (ramps color_scheme) 0.5%float) in
  let color_constructor := hex (blue (ramps color_scheme) 0.5%float) in
  let color_variant := hex (blue (ramps color_scheme) 0.5%float) in
  let color_property := hex (blue (ramps color_scheme) 0.5%float) in
  let color_enum := hex (orange (ramps color_scheme) 0.5%float) in
  let color_operator := hex (orange (ramps color_scheme) 0.5%float) in
  let color_number := hex (green (ramps color_scheme) 0.5%float) in
  let color_boolean := hex (green (ramps color_scheme) 0.5%float) in
  let color_constant := hex (green (ramps color_scheme) 0.5%float) in
  let color_keyword := hex (blue (ramps color_scheme) 0.5%float) in
  let default_syntax : value :=
    VObj (object_literal syntax0
      [ ("comment", VObj [("color", VStr color_comment)]);
        ("comment.doc", VObj [("color", VStr color_comment)]);
        ("primary", VObj [("color", VStr color_primary)]);
        ("predictive",
          VObj [("color", VStr color_predictive); ("italic", VBool true)]);
        ("emphasis", VObj [("color", VStr color_emphasis)]);
        ("emphasis.strong",
          VObj [("color", VStr color_emphasis);
                ("weight", VStr font_weights.bold)]);
        ("title",
          VObj [("color", VStr color_primary);
                ("weight", VStr font_weights.bold)]);
        ("link_uri",
          VObj [("color", VStr (hex (green (ramps color_scheme) 0.5%float)));
                ("underline", VBool true)]);
        ("link_text",
          VObj [("color", VStr (hex (orange (ramps color_scheme) 0.5%float)));
                ("italic", VBool true)]);
        ("text.literal", VObj [("color", VStr color_string)]);
        ("punctuation", VObj [("color", VStr color_punctuation)]);
        ("punctuation.bracket", VObj [("color", VStr color_punctuation)]);
        ("punctuation.delimiter", VObj [("color", VStr color_punctuation)]);
        ("punctuation.special",
          VObj [("color", VStr (hex (neutral (ramps color_scheme) 0.86%float)))]);
        ("punctuation.list_marker", VObj [("color", VStr color_punctuation)]);
        ("string", VObj [("color", VStr color_string)]);
        ("string.special", VObj [("color", VStr color_string)]);
        ("string.special.symbol", VObj [("color", VStr color_string)]);
        ("string.escape", VObj [("color", VStr color_comment)]);
        ("string.regex", VObj [("color", VStr color_string)]);
        ("constructor",
          VObj [("color", VStr (hex (blue (ramps color_scheme) 0.5%float)))]);
        ("variant",
          VObj [("color", VStr (hex (blue (ramps color_scheme) 0.5%float)))]);
        ("type", VObj [("color", VStr color_type)]);
        ("variable", VObj [("color", VStr color_primary)]);
        ("label",
          VObj [("color", VStr (hex (blue (ramps color_scheme) 0.5%float)))]);
        ("tag",
          VObj [("color", VStr (hex (blue (ramps color_scheme) 0.5%float)))]);
        ("attribute",
          VObj [("color", VStr (hex (blue (ramps color_scheme) 0.5%float)))]);
        ("property",
          VObj [("color", VStr (hex (blue (ramps color_scheme) 0.5%float)))]);
        ("constant", VObj [("color", VStr color_constant)]);
        ("keyword", VObj [("color", VStr color_keyword)]);
        ("enum", VObj [("color", VStr color_enum)]);
        ("operator", VObj [("color", VStr color_operator)]);
        ("number", VObj [("color", VStr color_number)]);
        ("boolean", VObj [("color", VStr color_boolean)]);
        ("function", VObj [("color", VStr color_function)]);
        ("preproc", VObj [("color", VStr color_primary)]);
        ("embedded", VObj [("color", VStr color_primary)]) ]) in
  default_syntax.

(** The [arrayMerge] option [merge_syntax] passes to [deepmerge]. *)
Definition arrayMerge (destinationArray sourceArray : list value)
  : list value :=
  destinationArray ++ sourceArray.

Definition merge_syntax (default_syntax : value)
    (color_scheme : ColorScheme) : value :=
  match syntax color_scheme with
  | None => default_syntax
  | Some override =>
      Deepmerge.deepmerge arrayMerge default_syntax (VObj override)
  end.

Definition build_syntax (color_scheme : ColorScheme) : value :=
  let default_syntax := build_default_syntax color_scheme in
  let syntax := merge_syntax default_syntax color_scheme in
  syntax.

(** [p[category].color]. *)
Definition category_color (p : value) (category : string) : option value :=
  attr p category "color".

(** [ramp(lightness).hex()], as the colour of a category. *)
Definition sample (ramp : Scale) (lightness : number) : option value :=
  Some (VStr (hex (ramp lightness))).

End Builder.

(** ** Predicates of the statements *)

(** Categories [interface Syntax] declares optional and
    [build_default_syntax] leaves out. *)
Definition unassigned_categories : list string :=
  [ "function.definition"; "function.method"; "function.builtin";
    "function.special.definition"; "function.method.builtin";
    "constant.builtin"; "type.builtin"; "variable.special" ].

(** The category has a non-empty string as its colour. *)
Definition has_color (p : value) (category : string) : bool :=
  match category_color p category with
  | Some (VStr s) => negb (String.eqb s "")
  | _ => false
  end.

(** The profile has the category as an own key. *)
Definition present (p : value) (category : string) : bool :=
  match prop p category with
  | Some _ => true
  | None => false
  end.

(** A value [clone] returns as it is: below it, outside arrays, every
    object is well formed and has no own key that shadows an inherited
    property name. *)
Fixpoint stable (v : value) : bool :=
  match v with
  | VObj props =>
      wf_obj props
      && forallb
           (fun kv => negb (Deepmerge.inherited (fst kv)) && stable (snd kv))
           props
  | _ => true
  end.

(** An override entry that leaves a category a non-empty colour: a
    well-formed record whose [color], when it has one, is a non-empty
    string. *)
Definition keeps_color (entry : value) : bool :=
  match entry with
  | VObj r =>
      wf_obj r
      && match get r "color" with
         | None => true
         | Some (VStr s) => negb (String.eqb s "")
         | Some _ => false
         end
  | _ => false
  end.

Definition override_keeps_colors (override : obj) : bool :=
  wf_obj override
  && forallb
       (fun k =>
          match get override k with
          | None => true
          | Some entry => keeps_color entry
          end)
       required_categories.

(** An override without arrays: its objects, at every depth, are well
    formed and hold primitives or such objects. *)
Fixpoint array_free (v : value) : bool :=
  match v with
  | VArr _ => false
  | VObj props =>
      wf_obj props && forallb (fun kv => array_free (snd kv)) props
  | _ => true
  end.

(** Every property value is one [clone] returns as it is. *)
Definition stable_values (o : obj) : bool :=
  forallb (fun kv => stable (snd kv)) o.

(** A decimal digit. *)
Definition is_digit (c : Ascii.ascii) : bool :=
  match index 0 (String c EmptyString) "0123456789" with
  | Some _ => true
  | None => false
  end.

Fixpoint all_digits (k : string) : bool :=
  match k with
  | EmptyString => true
  | String c k' => is_digit c && all_digits k'
  end.

(** A key written with decimal digits only, as every array index is:
    such keys JavaScript enumerates first, in ascending order, and not
    where [set_prop] puts them. *)
Definition index_like (k : string) : bool :=
  match k with
  | EmptyString => false
  | _ => all_digits k
  end.

(** No key of the object is index-like, so that the list order is the
    order [Object.keys] reports. *)
Definition no_index_keys (o : obj) : bool :=
  forallb (fun k => negb (index_like k)) (object_keys o).

(** [Object.keys(p)] of a profile. *)
Definition keys (p : value) : list string :=
  match p with
  | VObj o => object_keys o
  | _ => []
  end.

(** ** A reference instance and scheme *)

Module Reference.

(** A colour is stood for by its six hex digits.  [reference_mix]
    stands in for [chroma.mix] with a one-entry table; the entry is a
    placeholder, not the blend the library computes, and no statement
    depends on its value. *)
Definition reference_hex (digits : string) : string :=
  ("#" ++ digits)%string.

Definition reference_mix (color1 color2 : string) (ratio : number)
    (mode : string) : string :=
  if String.eqb color1 "#6B7280" && String.eqb color2 "#1E40AF"
     && PrimFloat.eqb ratio 0.45%float && String.eqb mode "lch"
  then "5A639B"
  else "000000".

Definition chroma : Chroma :=
  {| Color := string; hex := reference_hex; mix := reference_mix |}.

Definition reference_neutral (l : number) : string :=
  if PrimFloat.ltb l 0.5%float then "6B7280"
  else if PrimFloat.ltb l 0.8%float then "B4B8C0"
  else if PrimFloat.ltb l 1%float then "DCDEE3"
  else "FFFFFF".

Definition reference_blue (l : number) : string :=
  if PrimFloat.ltb l 0.5%float then "1E40AF" else "3B82F6".

Definition reference_ramps : @RampSet chroma :=
  @Build_RampSet chroma
    reference_neutral              (* neutral *)
    reference_blue                 (* blue *)
    (fun _ => "F97316")            (* orange *)
    (fun _ => "22C55E")            (* green *)
    (fun _ => "06B6D4")            (* cyan *)
    (fun _ => "EAB308").           (* yellow *)

(** The reference scheme without an override. *)
Definition plain_scheme : @ColorScheme chroma :=
  @Build_ColorScheme chroma reference_ramps None.

(** The reference scheme with the override [override]. *)
Definition scheme_with (override : obj) : @ColorScheme chroma :=
  @Build_ColorScheme chroma reference_ramps (Some override).

(** The properties of the reference scheme's default profile. *)
Definition default_props : obj :=
  match @build_default_syntax chroma plain_scheme with
  | VObj d => d
  | _ => []
  end.

(** [{ comment: { color: "#112233" }, predictive: { color: "#445566" },
      "function.method": { color: "#778899" } }] *)
Definition recolouring : obj :=
  [ ("comment", VObj [("color", VStr "#112233")]);
    ("predictive", VObj [("color", VStr "#445566")]);
    ("function.method", VObj [("color", VStr "#778899")]) ].

(** [{ comment: { color: "" } }] *)
Definition empty_comment_color : obj :=
  [ ("comment", VObj [("color", VStr "")]) ].

(** [{ comment: { color: undefined } }] *)
Definition undefined_comment_color : obj :=
  [ ("comment", VObj [("color", VUndef)]) ].

(** [{ comment: undefined }] *)
Definition undefined_comment : obj :=
  [ ("comment", VUndef) ].

(** [{ foo: { color: "#000000" } }], [foo] being no [Syntax] key. *)
Definition unknown_key : obj :=
  [ ("foo", VObj [("color", VStr "#000000")]) ].

(** A profile and an override with a list-valued attribute. *)
Definition profile_with_list : obj :=
  [ ("comment",
      VObj [("color", VStr "#B4B8C0"); ("features", VArr [VStr "liga"])]) ].

Definition override_with_list : obj :=
  [ ("comment", VObj [("features", VArr [VStr "calt"; VStr "zero"])]) ].

(** The reference scheme with the empty override [{}]. *)
Definition empty_override_scheme : @ColorScheme chroma :=
  @Build_ColorScheme chroma reference_ramps (Some []).

(** [{ toString: "x", comment: { italic: true, weight: "bold" },
      foo: {}, keyword: "#FF0000", "type.builtin": { color: "#0000FF" } }] *)
Definition mixed_override : obj :=
  [ ("toString", VStr "x");
    ("comment", VObj [("italic", VBool true); ("weight", VStr "bold")]);
    ("foo", VObj []);
    ("keyword", VStr "#FF0000");
    ("type.builtin", VObj [("color", VStr "#0000FF")]) ].

End Reference.

(** ** Induction on values, with the properties of an object in reach *)

Section ValueInduction.

Variable P : value -> Prop.
Hypothesis P_undef : P VUndef.
Hypothesis P_bool : forall b, P (VBool b).
Hypothesis P_str : forall s, P (VStr s).
Hypothesis P_arr : forall l, Forall P l -> P (VArr l).
Hypothesis P_obj :
  forall props, Forall (fun kv => P (snd kv)) props -> P (VObj props).

Fixpoint value_ind (v : value) : P v :=
  match v with
  | VUndef => P_undef
  | VBool b => P_bool b
  | VStr s => P_str s
  | VArr l =>
      P_arr l
        ((fix elements (l : list value) : Forall P l :=
            match l with
            | [] => Forall_nil P
            | x :: l' => Forall_cons x (value_ind x) (elements l')
            end) l)
  | VObj props =>
      P_obj props
        ((fix properties (o : obj) : Forall (fun kv => P (snd kv)) o :=
            match o with
            | [] => Forall_nil _
            | kv :: o' =>
                Forall_cons kv (value_ind (snd kv)) (properties o')
            end) props)
  end.

End ValueInduction.

(** * Properties *)

(** ** Plain objects *)

Section ObjectFacts.

Lemma mem_string_In (k : string) (l : list string) :
  mem_string k l = true <-> In k l.
Proof.
  induction l as [|k' l IH]; simpl.
  - split; [discriminate | tauto].
  - rewrite orb_true_iff, IH, String.eqb_eq. tauto.
Qed.

Lemma distinct_NoDup (l : list string) :
  distinct l = true <-> NoDup l.
Proof.
  induction l as [|k l IH]; simpl.
  - split; [constructor | reflexivity].
  - rewrite andb_true_iff, negb_true_iff, IH. split.
    + intros [Hk Hl]. constructor; [|exact Hl].
      intro Hin. apply mem_string_In in Hin. congruence.
    + intro H. inversion H as [|? ? Hk Hl]; subst. split; [|exact Hl].
      destruct (mem_string k l) eqn:E; [|reflexivity].
      apply mem_string_In in E. contradiction.
Qed.

Lemma get_None_iff (o : obj) (k : string) :
  get o k = None <-> ~ In k (object_keys o).
Proof.
  induction o as [|[k' v] o IH]; simpl.
  - tauto.
  - destruct (String.eqb_spec k' k) as [->|Hne].
    + split; [discriminate | tauto].
    + rewrite IH. tauto.
Qed.

Lemma get_set_prop (o : obj) (k k' : string) (v : value) :
  get (set_prop o k v) k' = if String.eqb k k' then Some v else get o k'.
Proof.
  induction o as [|[k0 v0] o IH]; simpl.
  - reflexivity.
  - destruct (String.eqb_spec k0 k) as [->|Hne]; simpl.
    + destruct (String.eqb k k'); reflexivity.
    + rewrite IH. destruct (String.eqb_spec k0 k') as [->|Hne'].
      * destruct (String.eqb_spec k k'); [congruence | reflexivity].
      * reflexivity.
Qed.

Lemma set_prop_fresh (o : obj) (k : string) (v : value) :
  ~ In k (object_keys o) -> set_prop o k v = o ++ [(k, v)].
Proof.
  induction o as [|[k0 v0] o IH]; simpl; intro Hk.
  - reflexivity.
  - destruct (String.eqb_spec k0 k) as [->|Hne]; [tauto|].
    rewrite IH by tauto. reflexivity.
Qed.

(** What a property loop leaves under a key, for a source with
    distinct keys. *)
Lemma get_assign_each (f : string -> value -> option value)
    (props dest : obj) (k : string) :
  NoDup (object_keys props) ->
  get (assign_each f props dest) k
  = match get props k with
    | Some v =>
        match f k v with Some v' => Some v' | None => get dest k end
    | None => get dest k
    end.
Proof.
  unfold assign_each. revert dest.
  induction props as [|[k0 v0] props IH]; simpl; intros dest Hnd.
  - reflexivity.
  - inversion Hnd as [|? ? Hk0 Hnd']; subst.
    rewrite (IH _ Hnd'). destruct (String.eqb_spec k0 k) as [->|Hne].
    + apply get_None_iff in Hk0. rewrite Hk0.
      destruct (f k v0); [|reflexivity].
      rewrite get_set_prop, String.eqb_refl. reflexivity.
    + assert (Hd : get (match f k0 v0 with
                        | Some v' => set_prop dest k0 v'
                        | None => dest
                        end) k = get dest k).
      { destruct (f k0 v0); [|reflexivity].
        rewrite get_set_prop.
        destruct (String.eqb_spec k0 k); [contradiction | reflexivity]. }
      rewrite Hd. reflexivity.
Qed.

Lemma has_own_cons (k0 : string) (v0 : value) (o : obj) (k : string) :
  has_own ((k0, v0) :: o) k = String.eqb k0 k || has_own o k.
Proof.
  unfold has_own. simpl. destruct (String.eqb k0 k); reflexivity.
Qed.

Lemma has_own_set_prop (o : obj) (k k' : string) (v : value) :
  has_own (set_prop o k v) k' = String.eqb k k' || has_own o k'.
Proof.
  unfold has_own. rewrite get_set_prop.
  destruct (String.eqb k k'); reflexivity.
Qed.

(** Which keys a property loop leaves, when whether it assigns
    depends on the key alone. *)
Lemma has_own_assign_each (f : string -> value -> option value)
    (g : string -> bool) (props dest : obj) (k : string) :
  (forall key v, f key v = None <-> g key = false) ->
  has_own (assign_each f props dest) k
  = has_own dest k || (g k && has_own props k).
Proof.
  intro Hfg. unfold assign_each. revert dest.
  induction props as [|[k0 v0] props IH]; simpl; intro dest.
  - rewrite andb_false_r, orb_false_r. reflexivity.
  - rewrite IH, has_own_cons.
    destruct (f k0 v0) eqn:Ef.
    + rewrite has_own_set_prop.
      destruct (String.eqb_spec k0 k) as [->|Hne]; simpl.
      * destruct (g k) eqn:Eg.
        -- rewrite orb_true_r. reflexivity.
        -- apply (Hfg k v0) in Eg. congruence.
      * reflexivity.
    + apply Hfg in Ef.
      destruct (String.eqb_spec k0 k) as [->|Hne]; simpl.
      * rewrite Ef. reflexivity.
      * reflexivity.
Qed.

(** A loop that assigns every property as it is, onto a destination
    with none of its keys, appends the properties. *)
Lemma assign_each_append (f : string -> value -> option value)
    (props dest : obj) :
  NoDup (object_keys dest ++ object_keys props) ->
  Forall (fun kv => f (fst kv) (snd kv) = Some (snd kv)) props ->
  assign_each f props dest = dest ++ props.
Proof.
  unfold assign_each. revert dest.
  induction props as [|[k0 v0] props IH]; simpl; intros dest Hnd Hf.
  - rewrite app_nil_r. reflexivity.
  - inversion Hf as [|? ? Hf0 Hf']; subst. simpl in Hf0. rewrite Hf0.
    assert (Hfresh : ~ In k0 (object_keys dest)).
    { intro Hin. apply NoDup_remove_2 in Hnd. apply Hnd.
      apply in_or_app. left. exact Hin. }
    rewrite (set_prop_fresh _ _ _ Hfresh).
    rewrite IH; [|unfold object_keys in *; rewrite map_app; simpl;
                  rewrite <- app_assoc; exact Hnd | exact Hf'].
    rewrite <- app_assoc. reflexivity.
Qed.

End ObjectFacts.

(** ** The deep merge *)

Section DeepmergeFacts.

Import Deepmerge.

Variable am : list value -> list value -> list value.

Lemma clone_primitive (v : value) :
  isMergeableObject v = false -> clone am v = v.
Proof. destruct v; simpl; intro H; try reflexivity; discriminate. Qed.

Lemma unsafe_on_empty (k : string) :
  propertyIsUnsafe (VObj []) k = inherited k.
Proof.
  unfold propertyIsUnsafe, propertyIsOnObject, has_own. simpl.
  rewrite andb_true_r. reflexivity.
Qed.

(** A safe key that is on the target is an own key of the target. *)
Lemma safe_on_object (t : value) (k : string) :
  propertyIsUnsafe t k = false ->
  propertyIsOnObject t k = match t with VObj o => has_own o k | _ => false end.
Proof.
  unfold propertyIsUnsafe, propertyIsOnObject. destruct t; try reflexivity.
  destruct (has_own l k); simpl; [reflexivity|].
  rewrite andb_true_r. intro H. exact H.
Qed.

Lemma assign_each_ext (f g : string -> value -> option value)
    (props dest : obj) :
  (forall k v, f k v = g k v) ->
  assign_each f props dest = assign_each g props dest.
Proof.
  intro H. unfold assign_each. revert dest.
  induction props as [|[k v] props IH]; simpl; intro dest.
  - reflexivity.
  - rewrite H. apply IH.
Qed.

Lemma clone_obj_get (s : obj) (k : string) :
  NoDup (object_keys s) ->
  prop (clone am (VObj s)) k
  = if inherited k then None else option_map (clone am) (get s k).
Proof.
  intro Hnd. simpl. rewrite (get_assign_each _ _ _ _ Hnd).
  rewrite unsafe_on_empty. simpl.
  destruct (get s k); destruct (inherited k); reflexivity.
Qed.

Lemma copy_target_get (t : obj) (k : string) :
  NoDup (object_keys t) ->
  get (copy_target am (VObj t)) k = option_map (clone am) (get t k).
Proof.
  intro Hnd. simpl. rewrite (get_assign_each _ _ _ _ Hnd).
  destruct (get t k); reflexivity.
Qed.

Lemma copy_target_has_own (t : obj) (k : string) :
  has_own (copy_target am (VObj t)) k = has_own t k.
Proof.
  simpl. rewrite (has_own_assign_each _ (fun _ => true)).
  - reflexivity.
  - intros key v. split; discriminate.
Qed.

Lemma deepmerge_object (t : value) (s : obj) :
  (forall l, t <> VArr l) ->
  deepmerge am t (VObj s) = VObj (mergeObject am t s).
Proof.
  intro H. destruct t; try reflexivity. exfalso. exact (H l eq_refl).
Qed.

(** [cloneUnlessOtherwiseSpecified] on a mergeable value is
    [deepmerge] onto the empty target, as the package defines it. *)
Lemma clone_is_deepmerge (v : value) :
  isMergeableObject v = true ->
  clone am v = deepmerge am (emptyTarget v) v.
Proof.
  destruct v as [| | |l|s]; intro H; try discriminate.
  - reflexivity.
  - unfold emptyTarget. rewrite deepmerge_object by discriminate.
    unfold mergeObject. cbn [clone]. f_equal.
    change (copy_target am (VObj [])) with (@nil (string * value)).
    apply assign_each_ext. intros k v.
    destruct (propertyIsUnsafe (VObj []) k) eqn:E; [reflexivity|].
    rewrite (safe_on_object _ _ E). reflexivity.
Qed.

(** The property [mergeObject] leaves under a key. *)
Lemma mergeObject_get (t : value) (s : obj) (k : string) :
  NoDup (object_keys s) ->
  get (mergeObject am t s) k
  = match get s k with
    | Some v =>
        if propertyIsUnsafe t k then get (copy_target am t) k
        else if propertyIsOnObject t k && isMergeableObject v
        then Some (deepmerge am (target_prop t k) v)
        else Some (clone am v)
    | None => get (copy_target am t) k
    end.
Proof.
  intro Hnd. unfold mergeObject. rewrite (get_assign_each _ _ _ _ Hnd).
  destruct (get s k) as [v|]; [|reflexivity].
  destruct (propertyIsUnsafe t k); [reflexivity|].
  destruct (propertyIsOnObject t k && isMergeableObject v); reflexivity.
Qed.

(** The keys [mergeObject] leaves: the target's, and the source's
    safe ones. *)
Lemma mergeObject_has_own (t : value) (s : obj) (k : string) :
  has_own (mergeObject am t s) k
  = has_own (copy_target am t) k
    || (negb (propertyIsUnsafe t k) && has_own s k).
Proof.
  unfold mergeObject.
  apply (has_own_assign_each _ (fun key => negb (propertyIsUnsafe t key))).
  intros key v.
  destruct (propertyIsUnsafe t key); simpl.
  - split; reflexivity.
  - destruct (propertyIsOnObject t key && isMergeableObject v);
      split; discriminate.
Qed.

Hypothesis am_nil : forall l, am [] l = l.

(** [clone] returns a stable value as it is. *)
Lemma clone_stable (v : value) : stable v = true -> clone am v = v.
Proof.
  induction v as [| | |l _|props IH] using value_ind; simpl; intro Hst;
    try reflexivity.
  - rewrite am_nil. reflexivity.
  - apply andb_true_iff in Hst as [Hwf Hall].
    apply distinct_NoDup in Hwf. rewrite forallb_forall in Hall.
    rewrite Forall_forall in IH.
    f_equal. rewrite assign_each_append; [reflexivity | exact Hwf |].
    apply Forall_forall. intros kv Hin.
    specialize (Hall kv Hin). apply andb_true_iff in Hall as [Hk Hv].
    rewrite unsafe_on_empty. apply negb_true_iff in Hk. rewrite Hk.
    rewrite (IH kv Hin Hv). reflexivity.
Qed.

End DeepmergeFacts.

(** ** The default profile *)

Section DefaultProfile.

Context {chroma : Chroma}.
Variable cs : ColorScheme.

(** C2, as the code runs: [Object.keys({} as Syntax)] is empty, so no
    category is initialised with the attribute defaults, and the
    record of a colour-only category (comment, string, keyword) holds
    its colour alone: weight, underline and italic are absent. *)
Theorem default_profile_lacks_attribute_defaults :
  prop (build_default_syntax cs) "comment"
  = Some (VObj [("color", VStr (hex (neutral (ramps cs) 0.71%float)))])
  /\ prop (build_default_syntax cs) "string"
     = Some (VObj [("color", VStr (hex (orange (ramps cs) 0.5%float)))])
  /\ prop (build_default_syntax cs) "keyword"
     = Some (VObj [("color", VStr (hex (blue (ramps cs) 0.5%float)))])
  /\ Forall
       (fun category =>
          attr (build_default_syntax cs) category "weight" = None
          /\ attr (build_default_syntax cs) category "underline" = None
          /\ attr (build_default_syntax cs) category "italic" = None)
       ["comment"; "string"; "keyword"].
Proof.
  repeat match goal with |- _ /\ _ => split end; try reflexivity.
  repeat (apply Forall_cons || apply Forall_nil);
    (split; [|split]); reflexivity.
Qed.

(** C6: every category takes its colour from the ramp and lightness
    the palette assigns to it, and a scheme whose neutral ramp yields
    #FFFFFF at 1 and whose blue ramp yields #3B82F6 at 0.5 gives
    primary the colour #FFFFFF and keyword the colour #3B82F6. *)
Theorem default_palette_sampling :
  Forall
    (fun c =>
       category_color (build_default_syntax cs) c
       = sample (neutral (ramps cs)) 1%float)
    ["primary"; "variable"; "preproc"; "embedded"]
  /\ Forall
       (fun c =>
          category_color (build_default_syntax cs) c
          = sample (neutral (ramps cs)) 0.71%float)
       ["comment"; "comment.doc"]
  /\ Forall
       (fun c =>
          category_color (build_default_syntax cs) c
          = sample (neutral (ramps cs)) 0.86%float)
       ["punctuation"; "punctuation.bracket"; "punctuation.delimiter";
        "punctuation.special"; "punctuation.list_marker"]
  /\ Forall
       (fun c =>
          category_color (build_default_syntax cs) c
          = sample (blue (ramps cs)) 0.5%float)
       ["constructor"; "variant"; "property"; "tag"; "attribute"; "label";
        "keyword"]
  /\ Forall
       (fun c =>
          category_color (build_default_syntax cs) c
          = sample (orange (ramps cs)) 0.5%float)
       ["enum"; "operator"; "string"; "string.special"; "text.literal"]
  /\ Forall
       (fun c =>
          category_color (build_default_syntax cs) c
          = sample (green (ramps cs)) 0.5%float)
       ["number"; "boolean"; "constant"]
  /\ category_color (build_default_syntax cs) "function"
     = sample (yellow (ramps cs)) 0.5%float
  /\ category_color (build_default_syntax cs) "type"
     = sample (cyan (ramps cs)) 0.5%float
  /\ (hex (neutral (ramps cs) 1%float) = "#FFFFFF" ->
      hex (blue (ramps cs) 0.5%float) = "#3B82F6" ->
      category_color (build_default_syntax cs) "primary"
      = Some (VStr "#FFFFFF")
      /\ category_color (build_default_syntax cs) "keyword"
         = Some (VStr "#3B82F6")).
Proof.
  repeat match goal with |- _ /\ _ => split end;
    try (repeat (apply Forall_cons || apply Forall_nil); reflexivity).
  intros Hwhite Hblue. unfold category_color.
  rewrite <- Hwhite, <- Hblue. split; reflexivity.
Qed.

(** X13: the predictive colour is the hex rendering of [chroma.mix]
    applied to the hex rendering of the neutral ramp at 0.4, the hex
    rendering of the blue ramp at 0.4, the ratio 0.45 (the weight of
    the second colour, blue) and the mode "lch". *)
Theorem predictive_color_blend :
  category_color (build_default_syntax cs) "predictive"
  = Some
      (VStr
         (hex (mix (hex (neutral (ramps cs) 0.4%float))
                   (hex (blue (ramps cs) 0.4%float)) 0.45%float "lch"))).
Proof. reflexivity. Qed.

(** C8: the flags and colours step 4 sets besides the palette:
    predictive is italic, "emphasis.strong" and title are bold,
    link_uri is underlined and green at 0.5, link_text is italic and
    orange at 0.5, and "string.escape" has the comment colour. *)
Theorem default_special_categories :
  attr (build_default_syntax cs) "predictive" "italic" = Some (VBool true)
  /\ attr (build_default_syntax cs) "emphasis.strong" "weight"
     = Some (VStr font_weights.bold)
  /\ attr (build_default_syntax cs) "title" "weight"
     = Some (VStr font_weights.bold)
  /\ attr (build_default_syntax cs) "link_uri" "underline"
     = Some (VBool true)
  /\ category_color (build_default_syntax cs) "link_uri"
     = sample (green (ramps cs)) 0.5%float
  /\ attr (build_default_syntax cs) "link_text" "italic"
     = Some (VBool true)
  /\ category_color (build_default_syntax cs) "link_text"
     = sample (orange (ramps cs)) 0.5%float
  /\ category_color (build_default_syntax cs) "string.escape"
     = category_color (build_default_syntax cs) "comment".
Proof.
  repeat match goal with |- _ /\ _ => split end; reflexivity.
Qed.

End DefaultProfile.

(** ** Facts about [deepmerge] that the merger relies on *)

Section MergedProperties.

Import Deepmerge.

Variable am : list value -> list value -> list value.

Lemma wf_obj_NoDup (o : obj) : wf_obj o = true -> NoDup (object_keys o).
Proof. apply distinct_NoDup. Qed.

Lemma own_is_safe (p : obj) (k : string) :
  has_own p k = true -> propertyIsUnsafe (VObj p) k = false.
Proof.
  intro H. unfold propertyIsUnsafe. rewrite H. apply andb_false_r.
Qed.

Lemma fresh_is_safe (t : value) (k : string) :
  inherited k = false -> propertyIsUnsafe t k = false.
Proof.
  intro H. unfold propertyIsUnsafe, propertyIsOnObject.
  destruct t; try reflexivity.
  rewrite H, orb_false_r. destruct (has_own l k); reflexivity.
Qed.

(** A primitive under a key no object inherits replaces whatever the
    target has there. *)
Lemma deepmerge_primitive (t : value) (r : obj) (k : string) (x : value) :
  wf_obj r = true ->
  inherited k = false ->
  get r k = Some x ->
  isMergeableObject x = false ->
  prop (deepmerge am t (VObj r)) k = Some x.
Proof.
  intros Hwf Hk Hget Hx. apply wf_obj_NoDup in Hwf.
  assert (Hobj : prop (VObj (mergeObject am t r)) k = Some x).
  { cbn [prop]. rewrite (mergeObject_get _ _ _ _ Hwf), Hget.
    rewrite (fresh_is_safe _ _ Hk), Hx, andb_false_r.
    rewrite (clone_primitive _ _ Hx). reflexivity. }
  destruct t; try exact Hobj.
  change (deepmerge am (VArr l) (VObj r)) with (clone am (VObj r)).
  rewrite (clone_obj_get _ _ _ Hwf), Hk, Hget. simpl.
  rewrite (clone_primitive _ _ Hx). reflexivity.
Qed.

(** A property of the target that the source does not name is copied. *)
Lemma deepmerge_untouched (d r : obj) (k : string) :
  wf_obj d = true -> wf_obj r = true ->
  get r k = None ->
  prop (deepmerge am (VObj d) (VObj r)) k = option_map (clone am) (get d k).
Proof.
  intros Hd Hr Hget. apply wf_obj_NoDup in Hd, Hr.
  rewrite deepmerge_object by discriminate. cbn [prop].
  rewrite (mergeObject_get _ _ _ _ Hr), Hget.
  apply copy_target_get. exact Hd.
Qed.

(** An object under an own key of the target is merged into it. *)
Lemma deepmerge_nested (p ov : obj) (k : string) (t : value) (r : obj) :
  wf_obj ov = true ->
  get p k = Some t ->
  get ov k = Some (VObj r) ->
  prop (deepmerge am (VObj p) (VObj ov)) k
  = Some (deepmerge am t (VObj r)).
Proof.
  intros Hov Hp Hget. apply wf_obj_NoDup in Hov.
  assert (Hown : has_own p k = true)
    by (unfold has_own; rewrite Hp; reflexivity).
  rewrite deepmerge_object by discriminate. cbn [prop].
  rewrite (mergeObject_get _ _ _ _ Hov), Hget.
  rewrite (own_is_safe _ _ Hown).
  unfold propertyIsOnObject. rewrite Hown. simpl.
  unfold target_prop. simpl. rewrite Hp. reflexivity.
Qed.

(** A key that is new to the target and that no object inherits is
    carried over with a clone of its value; one that objects inherit
    is skipped. *)
Lemma deepmerge_new_key (p ov : obj) (k : string) (v : value) :
  wf_obj ov = true ->
  has_own p k = false ->
  get ov k = Some v ->
  prop (deepmerge am (VObj p) (VObj ov)) k
  = if inherited k then None else Some (clone am v).
Proof.
  intros Hov Hp Hget. apply wf_obj_NoDup in Hov.
  rewrite deepmerge_object by discriminate. cbn [prop].
  rewrite (mergeObject_get _ _ _ _ Hov), Hget.
  assert (Hc : has_own (copy_target am (VObj p)) k = false)
    by (rewrite copy_target_has_own; exact Hp).
  unfold propertyIsUnsafe, propertyIsOnObject. rewrite Hp.
  cbn [orb negb]. rewrite andb_true_r.
  destruct (inherited k); [|reflexivity].
  unfold has_own in Hc.
  destruct (get (copy_target am (VObj p)) k); [discriminate | reflexivity].
Qed.

(** The keys of a merged object. *)
Lemma deepmerge_present (p ov : obj) (k : string) :
  present (deepmerge am (VObj p) (VObj ov)) k
  = has_own p k || (negb (propertyIsUnsafe (VObj p) k) && has_own ov k).
Proof.
  unfold present. rewrite deepmerge_object by discriminate. cbn [prop].
  fold (has_own (mergeObject am (VObj p) ov) k).
  rewrite mergeObject_has_own, copy_target_has_own. reflexivity.
Qed.

End MergedProperties.

(** ** The override merger *)

Section Merger.

Context {chroma : Chroma}.

Import Deepmerge.

Lemma merge_syntax_with_override (P : value) (cs : ColorScheme) (ov : obj) :
  syntax cs = Some ov ->
  merge_syntax P cs = deepmerge arrayMerge P (VObj ov).
Proof. intro H. unfold merge_syntax. rewrite H. reflexivity. Qed.

Lemma arrayMerge_nil (l : list value) : arrayMerge [] l = l.
Proof. reflexivity. Qed.

(** The one category that shadows an inherited property name,
    [constructor], is a required one. *)
Lemma inherited_category_is_required (C : string) :
  mem_string C syntax_categories = true ->
  inherited C = true ->
  mem_string C required_categories = true.
Proof.
  intros Hcat Hinh. apply mem_string_In in Hcat.
  unfold syntax_categories, required_categories, optional_categories in Hcat.
  cbn [app In] in Hcat.
  repeat (destruct Hcat as [<-|Hcat];
          [first [reflexivity | discriminate Hinh]|]).
  contradiction.
Qed.

(** In a profile with every required category, no category key is
    unsafe to merge. *)
Lemma category_is_safe (p : obj) (C : string) :
  forallb (has_own p) required_categories = true ->
  mem_string C syntax_categories = true ->
  propertyIsUnsafe (VObj p) C = false.
Proof.
  intros Hreq Hcat. destruct (inherited C) eqn:Hinh.
  - apply own_is_safe. rewrite forallb_forall in Hreq. apply Hreq.
    apply mem_string_In. apply inherited_category_is_required; assumption.
  - apply fresh_is_safe. exact Hinh.
Qed.

(** C4: a scheme without override data leaves the default profile as
    it is. *)
Theorem merge_syntax_without_override (P : value) (cs : ColorScheme) :
  syntax cs = None -> merge_syntax P cs = P.
Proof. intro H. unfold merge_syntax. rewrite H. reflexivity. Qed.

(** C5: for a default profile with every required category and an
    override, both well-formed objects: a colour the override gives a
    category is the merged category's colour, whatever the default
    had; an attribute the override's record leaves out keeps the
    default's value; a category the override leaves out is the
    default's. *)
Theorem merge_syntax_override_precedence
    (p ov : obj) (cs : ColorScheme) :
  syntax cs = Some ov ->
  wf_obj p = true ->
  wf_obj ov = true ->
  forallb (has_own p) required_categories = true ->
  (forall C r X,
      mem_string C syntax_categories = true ->
      get ov C = Some (VObj r) -> wf_obj r = true ->
      get r "color" = Some (VStr X) ->
      category_color (merge_syntax (VObj p) cs) C = Some (VStr X))
  /\ (forall C r d a v,
        get ov C = Some (VObj r) -> wf_obj r = true ->
        get p C = Some (VObj d) -> wf_obj d = true ->
        get r a = None ->
        get d a = Some v -> stable v = true ->
        attr (merge_syntax (VObj p) cs) C a = Some v)
  /\ (forall C v,
        get ov C = None ->
        get p C = Some v -> stable v = true ->
        prop (merge_syntax (VObj p) cs) C = Some v).
Proof.
  intros Hs Hp Hov Hreq. rewrite (merge_syntax_with_override _ _ _ Hs).
  split; [|split].
  - intros C r X Hcat HC Hr HX. unfold category_color, attr.
    assert (Hmerged : exists t,
               prop (deepmerge arrayMerge (VObj p) (VObj ov)) C
               = Some (deepmerge arrayMerge t (VObj r))).
    { destruct (get p C) as [t|] eqn:HpC.
      - exists t. apply deepmerge_nested with (1 := Hov); assumption.
      - exists (emptyTarget (VObj r)).
        assert (Hown : has_own p C = false)
          by (unfold has_own; rewrite HpC; reflexivity).
        rewrite (deepmerge_new_key _ _ _ _ _ Hov Hown HC).
        pose proof (category_is_safe _ _ Hreq Hcat) as Hsafe.
        unfold propertyIsUnsafe, propertyIsOnObject in Hsafe.
        rewrite Hown in Hsafe. cbn [orb negb] in Hsafe.
        rewrite andb_true_r in Hsafe. rewrite Hsafe.
        rewrite <- clone_is_deepmerge by reflexivity. reflexivity. }
    destruct Hmerged as [t Ht]. rewrite Ht.
    apply deepmerge_primitive;
      [exact Hr | reflexivity | exact HX | reflexivity].
  - intros C r d a v HC Hr Hd Hwd Hra Hda Hv. unfold attr.
    rewrite (deepmerge_nested _ _ _ _ _ _ Hov Hd HC).
    rewrite (deepmerge_untouched _ _ _ _ Hwd Hr Hra), Hda. simpl.
    rewrite (clone_stable _ arrayMerge_nil _ Hv). reflexivity.
  - intros C v HC HpC Hv.
    rewrite (deepmerge_untouched _ _ _ _ Hp Hov HC), HpC. simpl.
    rewrite (clone_stable _ arrayMerge_nil _ Hv). reflexivity.
Qed.

(** C9: when a category's attribute is an array in both the default
    and the override, the merged attribute is the default's elements
    followed by the override's. *)
Theorem merge_syntax_concatenates_arrays
    (p ov : obj) (cs : ColorScheme) (C a : string) (d r : obj)
    (xs ys : list value) :
  syntax cs = Some ov ->
  wf_obj ov = true ->
  get p C = Some (VObj d) ->
  get ov C = Some (VObj r) -> wf_obj r = true ->
  get d a = Some (VArr xs) ->
  get r a = Some (VArr ys) ->
  attr (merge_syntax (VObj p) cs) C a = Some (VArr (xs ++ ys)).
Proof.
  intros Hs Hov Hd HC Hr Hxs Hys.
  rewrite (merge_syntax_with_override _ _ _ Hs). unfold attr.
  rewrite (deepmerge_nested _ _ _ _ _ _ Hov Hd HC).
  apply wf_obj_NoDup in Hr.
  rewrite deepmerge_object by discriminate. cbn [prop].
  rewrite (mergeObject_get _ _ _ _ Hr), Hys.
  assert (Hown : has_own d a = true)
    by (unfold has_own; rewrite Hxs; reflexivity).
  rewrite (own_is_safe _ _ Hown).
  unfold propertyIsOnObject. rewrite Hown. cbn [orb andb isMergeableObject].
  unfold target_prop. cbn [prop]. rewrite Hxs. reflexivity.
Qed.

(** C3, as the code behaves: a key of the override outside the closed
    category set, which the default profile does not have, is carried
    into the merged profile with a clone of its value (the value
    itself when it is stable), unless it names a property objects
    inherit, in which case it is skipped; the override is never
    rejected. *)
Theorem merge_syntax_carries_unknown_keys
    (p ov : obj) (cs : ColorScheme) (k : string) (v : value) :
  syntax cs = Some ov ->
  wf_obj ov = true ->
  mem_string k syntax_categories = false ->
  has_own p k = false ->
  get ov k = Some v ->
  prop (merge_syntax (VObj p) cs) k
  = (if inherited k then None else Some (clone arrayMerge v))
  /\ (stable v = true -> clone arrayMerge v = v).
Proof.
  intros Hs Hov _ Hp Hk. rewrite (merge_syntax_with_override _ _ _ Hs).
  split.
  - apply deepmerge_new_key; assumption.
  - apply clone_stable. exact arrayMerge_nil.
Qed.

End Merger.

(** ** The whole pipeline *)

Section Pipeline.

Context {chroma : Chroma}.

Import Deepmerge.

(** The default profile is a well-formed object in which every
    required category is a well-formed record with a sampled colour,
    and which has none of the unassigned optional categories. *)
Lemma default_profile_shape (cs : ColorScheme) :
  exists d,
    build_default_syntax cs = VObj d
    /\ wf_obj d = true
    /\ Forall
         (fun k =>
            exists a c,
              get d k = Some (VObj a)
              /\ wf_obj a = true
              /\ get a "color" = Some (VStr (hex c)))
         required_categories
    /\ Forall (fun k => has_own d k = false) unassigned_categories.
Proof.
  eexists. split; [reflexivity|]. split; [reflexivity|]. split.
  - repeat (apply Forall_cons || apply Forall_nil);
      (eexists; eexists; split; [lazy; reflexivity|];
       split; reflexivity).
  - repeat (apply Forall_cons || apply Forall_nil); reflexivity.
Qed.

(** A required category keeps a non-empty colour through the merge
    when the override's entry for it, if any, keeps one. *)
Lemma merged_color_kept (p ov : obj) (k : string) (a : obj) (c : string) :
  wf_obj p = true -> wf_obj ov = true ->
  get p k = Some (VObj a) -> wf_obj a = true ->
  get a "color" = Some (VStr c) -> c <> "" ->
  match get ov k with
  | None => true
  | Some entry => keeps_color entry
  end = true ->
  has_color (deepmerge arrayMerge (VObj p) (VObj ov)) k = true.
Proof.
  intros Hp Hov Hk Ha Hc Hne Hentry.
  assert (Hnonempty : forall s, s <> "" -> negb (String.eqb s "") = true).
  { intros s Hs. apply negb_true_iff. apply String.eqb_neq. exact Hs. }
  unfold has_color, category_color, attr.
  destruct (get ov k) as [entry|] eqn:Hovk.
  - destruct entry as [| | | |r]; try discriminate Hentry.
    cbn [keeps_color] in Hentry. apply andb_true_iff in Hentry as [Hr Hcol].
    rewrite (deepmerge_nested _ _ _ _ _ _ Hov Hk Hovk).
    destruct (get r "color") as [x|] eqn:Hrc.
    + destruct x as [| |s| |]; try discriminate Hcol.
      rewrite (deepmerge_primitive arrayMerge (VObj a) r "color" (VStr s)
                 Hr eq_refl Hrc eq_refl).
      exact Hcol.
    + rewrite (deepmerge_untouched _ _ _ _ Ha Hr Hrc), Hc. simpl.
      apply Hnonempty. exact Hne.
  - rewrite (deepmerge_untouched _ _ _ _ Hp Hov Hovk), Hk.
    cbn [option_map].
    rewrite (clone_obj_get _ _ _ (wf_obj_NoDup _ Ha)), Hc. simpl.
    apply Hnonempty. exact Hne.
Qed.

(** C1, as the code behaves: when every colour renders to a non-empty
    string, the default profile gives every required category a
    non-empty colour, whatever override the scheme carries; and the
    final profile does so too provided the override's entry for a
    required category, if it has one, is a record whose colour, if it
    names one, is a non-empty string. *)
Theorem required_categories_have_colors (cs : ColorScheme) :
  (forall c : Color, hex c <> "") ->
  Forall
    (fun k => has_color (build_default_syntax cs) k = true)
    required_categories
  /\ ((forall ov, syntax cs = Some ov -> override_keeps_colors ov = true) ->
      Forall
        (fun k => has_color (build_syntax cs) k = true)
        required_categories).
Proof.
  intro Hhex.
  destruct (default_profile_shape cs) as (d & Hd & Hwf & Hreq & _).
  rewrite Forall_forall in Hreq.
  assert (Hdefault : forall k,
             In k required_categories -> has_color (VObj d) k = true).
  { intros k Hin. destruct (Hreq k Hin) as (a & c & Hk & Ha & Hc).
    unfold has_color, category_color, attr. cbn [prop]. rewrite Hk.
    cbn [prop]. rewrite Hc. apply negb_true_iff, String.eqb_neq, Hhex. }
  unfold build_syntax, merge_syntax. rewrite Hd.
  split.
  - apply Forall_forall. exact Hdefault.
  - intro Hoverride. apply Forall_forall. intros k Hin.
    destruct (syntax cs) as [ov|] eqn:Hs; [|exact (Hdefault k Hin)].
    specialize (Hoverride ov eq_refl).
    apply andb_true_iff in Hoverride as [Hov Hall].
    rewrite forallb_forall in Hall.
    destruct (Hreq k Hin) as (a & c & Hk & Ha & Hc).
    apply merged_color_kept with (a := a) (c := hex c); auto.
Qed.

(** C10: the optional categories the builder never assigns are
    absent from the default profile; the final profile has one exactly
    when the scheme's override has it, and then with a clone of the
    value the override supplies: the supplied value itself when it is
    stable, as every style record is. *)
Theorem unassigned_categories_come_from_override (cs : ColorScheme) :
  Forall
    (fun k =>
       present (build_default_syntax cs) k = false
       /\ (present (build_syntax cs) k = true
           <-> exists ov, syntax cs = Some ov /\ has_own ov k = true)
       /\ (forall ov,
             syntax cs = Some ov -> wf_obj ov = true ->
             prop (build_syntax cs) k
             = option_map (Deepmerge.clone arrayMerge) (get ov k))
       /\ (forall ov v,
             syntax cs = Some ov -> wf_obj ov = true ->
             get ov k = Some v -> stable v = true ->
             prop (build_syntax cs) k = Some v))
    unassigned_categories.
Proof.
  destruct (default_profile_shape cs) as (d & Hd & Hwf & _ & Hopt).
  rewrite Forall_forall in Hopt |- *. intros k Hin.
  specialize (Hopt k Hin).
  assert (Hfresh : inherited k = false).
  { cbn [unassigned_categories In] in Hin.
    repeat (destruct Hin as [<-|Hin]; [reflexivity|]). contradiction. }
  assert (Hvalue : forall ov,
             syntax cs = Some ov -> wf_obj ov = true ->
             prop (build_syntax cs) k
             = option_map (clone arrayMerge) (get ov k)).
  { intros ov Hs Hov. unfold build_syntax.
    rewrite Hd, (merge_syntax_with_override _ _ _ Hs).
    destruct (get ov k) as [v|] eqn:Hk.
    - rewrite (deepmerge_new_key _ _ _ _ _ Hov Hopt Hk), Hfresh.
      reflexivity.
    - rewrite (deepmerge_untouched _ _ _ _ Hwf Hov Hk).
      unfold has_own in Hopt.
      destruct (get d k); [discriminate | reflexivity]. }
  unfold build_syntax, merge_syntax. rewrite Hd.
  assert (Habsent : present (VObj d) k = false) by exact Hopt.
  split; [exact Habsent|]. split; [|split].
  - destruct (syntax cs) as [ov|].
    + rewrite deepmerge_present, Hopt, (fresh_is_safe _ _ Hfresh). simpl.
      split.
      * intro H. exists ov. split; [reflexivity | exact H].
      * intros (ov' & Heq & H). injection Heq as <-. exact H.
    + rewrite Habsent. split; [discriminate|].
      intros (ov' & Heq & _). discriminate Heq.
  - intros ov Hs Hov. specialize (Hvalue ov Hs Hov).
    unfold build_syntax, merge_syntax in Hvalue. rewrite Hd in Hvalue.
    exact Hvalue.
  - intros ov v Hs Hov Hk Hv. specialize (Hvalue ov Hs Hov).
    unfold build_syntax, merge_syntax in Hvalue. rewrite Hd in Hvalue.
    rewrite Hvalue, Hk. cbn [option_map].
    rewrite (clone_stable _ arrayMerge_nil _ Hv). reflexivity.
Qed.

End Pipeline.

(** ** The theorems at the reference scheme *)

Section ReferenceScheme.

Import Reference.

Lemma reference_hex_nonempty (c : @Color chroma) : @hex chroma c <> "".
Proof. discriminate. Qed.

(** The override [{ comment: { color: "" } }] leaves the required
    category comment, to which the default gave a colour, with the
    empty colour; [{ comment: { color: undefined } }] leaves it without
    a colour, and [{ comment: undefined }] without a record. *)
Lemma empty_color_override_empties_comment :
  In "comment" required_categories
  /\ has_color
       (@build_default_syntax chroma (scheme_with empty_comment_color))
       "comment" = true
  /\ category_color
       (@build_syntax chroma (scheme_with empty_comment_color)) "comment"
     = Some (VStr "")
  /\ has_color
       (@build_syntax chroma (scheme_with empty_comment_color)) "comment"
     = false
  /\ category_color
       (@build_syntax chroma (scheme_with undefined_comment_color)) "comment"
     = Some VUndef
  /\ prop (@build_syntax chroma (scheme_with undefined_comment)) "comment"
     = Some VUndef.
Proof.
  split; [left; reflexivity|].
  repeat match goal with |- _ /\ _ => split end; vm_compute; reflexivity.
Defined.

Lemma required_categories_have_colors_witness :
  Forall
    (fun k =>
       has_color
         (@build_default_syntax chroma (scheme_with empty_comment_color)) k
       = true)
    required_categories
  /\ Forall
       (fun k =>
          has_color (@build_syntax chroma (scheme_with recolouring)) k = true)
       required_categories.
Proof.
  split.
  - apply (@required_categories_have_colors chroma
             (scheme_with empty_comment_color)).
    exact reference_hex_nonempty.
  - apply (@required_categories_have_colors chroma (scheme_with recolouring)).
    + exact reference_hex_nonempty.
    + intros ov Hov. injection Hov as <-. vm_compute. reflexivity.
Defined.

(** The key foo is outside the closed category set, and the merged
    profile has it, with the attributes the override gave it. *)
Lemma unknown_key_enters_the_profile :
  mem_string "foo" syntax_categories = false
  /\ prop (@merge_syntax chroma
             (@build_default_syntax chroma (scheme_with unknown_key))
             (scheme_with unknown_key)) "foo"
     = Some (VObj [("color", VStr "#000000")]).
Proof. split; vm_compute; reflexivity. Defined.

Lemma merge_syntax_carries_unknown_keys_witness :
  prop (@merge_syntax chroma (VObj default_props) (scheme_with unknown_key))
    "foo"
  = Some (VObj [("color", VStr "#000000")]).
Proof.
  destruct (@merge_syntax_carries_unknown_keys chroma
              default_props unknown_key (scheme_with unknown_key) "foo"
              (VObj [("color", VStr "#000000")])
              eq_refl eq_refl eq_refl eq_refl eq_refl) as [Hcarried Hstable].
  rewrite Hcarried. cbn [Deepmerge.inherited].
  rewrite (Hstable eq_refl). reflexivity.
Defined.

Lemma merge_syntax_without_override_witness :
  @merge_syntax chroma (@build_default_syntax chroma plain_scheme) plain_scheme
  = @build_default_syntax chroma plain_scheme.
Proof.
  apply (@merge_syntax_without_override chroma). reflexivity.
Defined.

Lemma merge_syntax_override_precedence_witness :
  category_color
    (@merge_syntax chroma (VObj default_props) (scheme_with recolouring))
    "comment" = Some (VStr "#112233")
  /\ attr (@merge_syntax chroma (VObj default_props) (scheme_with recolouring))
       "predictive" "italic" = Some (VBool true)
  /\ prop (@merge_syntax chroma (VObj default_props) (scheme_with recolouring))
       "string" = Some (VObj [("color", VStr "#F97316")]).
Proof.
  destruct (@merge_syntax_override_precedence chroma
              default_props recolouring (scheme_with recolouring)
              eq_refl eq_refl eq_refl eq_refl)
    as (Hcolor & Hsibling & Habsent).
  split; [|split].
  - apply (Hcolor "comment" [("color", VStr "#112233")] "#112233");
      reflexivity.
  - apply (Hsibling "predictive" [("color", VStr "#445566")]
             [("color", VStr "#5A639B"); ("italic", VBool true)]);
      reflexivity.
  - apply (Habsent "string"); reflexivity.
Defined.

Lemma merge_syntax_concatenates_arrays_witness :
  attr (@merge_syntax chroma (VObj profile_with_list)
          (scheme_with override_with_list)) "comment" "features"
  = Some (VArr [VStr "liga"; VStr "calt"; VStr "zero"]).
Proof.
  apply (@merge_syntax_concatenates_arrays chroma
           profile_with_list override_with_list
           (scheme_with override_with_list) "comment" "features"
           [("color", VStr "#B4B8C0"); ("features", VArr [VStr "liga"])]
           [("features", VArr [VStr "calt"; VStr "zero"])]
           [VStr "liga"] [VStr "calt"; VStr "zero"]);
    reflexivity.
Defined.

Lemma default_palette_sampling_witness :
  category_color (@build_default_syntax chroma plain_scheme) "primary"
  = Some (VStr "#FFFFFF")
  /\ category_color (@build_default_syntax chroma plain_scheme) "keyword"
     = Some (VStr "#3B82F6").
Proof.
  destruct (@default_palette_sampling chroma plain_scheme)
    as (_ & _ & _ & _ & _ & _ & _ & _ & Hexample).
  apply Hexample; reflexivity.
Defined.

Lemma unassigned_categories_come_from_override_witness :
  prop (@build_syntax chroma (scheme_with mixed_override)) "type.builtin"
  = Some (VObj [("color", VStr "#0000FF")])
  /\ prop (@build_syntax chroma (scheme_with mixed_override)) "function.method"
     = None
  /\ present (@build_default_syntax chroma (scheme_with mixed_override))
       "type.builtin" = false.
Proof.
  pose proof (@unassigned_categories_come_from_override chroma
                (scheme_with mixed_override)) as H.
  rewrite Forall_forall in H.
  assert (Htype : In "type.builtin" unassigned_categories)
    by (cbn [unassigned_categories In]; tauto).
  assert (Hmethod : In "function.method" unassigned_categories)
    by (cbn [unassigned_categories In]; tauto).
  destruct (H _ Htype) as (Habsent & _ & _ & Hstable).
  destruct (H _ Hmethod) as (_ & _ & Hvalue & _).
  split; [|split].
  - apply (Hstable mixed_override); reflexivity.
  - rewrite (Hvalue mixed_override eq_refl eq_refl). reflexivity.
  - exact Habsent.
Defined.

End ReferenceScheme.

(** * Further properties of the builder and the merger *)

(** ** Keys and their order *)

Section KeyOrder.

Import Deepmerge.

Lemma keys_set_prop (o : obj) (k : string) (v : value) :
  object_keys (set_prop o k v)
  = if has_own o k then object_keys o else object_keys o ++ [k].
Proof.
  induction o as [|[k0 v0] o IH]; simpl.
  - reflexivity.
  - rewrite has_own_cons.
    destruct (String.eqb_spec k0 k) as [->|Hne]; simpl.
    + reflexivity.
    + rewrite IH. destruct (has_own o k); reflexivity.
Qed.

(** A property loop keeps the destination's keys in place and appends
    the keys it assigns that the destination lacks, in source order. *)
Lemma keys_assign_each (f : string -> value -> option value)
    (g : string -> bool) (props dest : obj) :
  NoDup (object_keys props) ->
  (forall key v, f key v = None <-> g key = false) ->
  object_keys (assign_each f props dest)
  = object_keys dest
    ++ filter (fun k => g k && negb (has_own dest k)) (object_keys props).
Proof.
  intros Hnd Hfg. unfold assign_each. revert dest.
  induction props as [|[k0 v0] props IH]; simpl; intro dest.
  - rewrite app_nil_r. reflexivity.
  - inversion Hnd as [|? ? Hk0 Hnd']; subst.
    rewrite (IH Hnd'). clear IH.
    assert (Hrest : forall dest',
               (forall k, k <> k0 -> has_own dest' k = has_own dest k) ->
               filter (fun k => g k && negb (has_own dest' k))
                 (object_keys props)
               = filter (fun k => g k && negb (has_own dest k))
                   (object_keys props)).
    { intros dest' Hsame. apply filter_ext_in. intros k Hin.
      rewrite Hsame; [reflexivity|]. intros ->. contradiction. }
    destruct (f k0 v0) as [v'|] eqn:Ef.
    + assert (Hg : g k0 = true).
      { destruct (g k0) eqn:Eg; [reflexivity|].
        apply (Hfg k0 v0) in Eg. congruence. }
      rewrite Hg, keys_set_prop. cbn [andb].
      rewrite Hrest.
      * destruct (has_own dest k0); cbn [negb].
        -- reflexivity.
        -- rewrite <- app_assoc. reflexivity.
      * intros k Hne. rewrite has_own_set_prop.
        destruct (String.eqb_spec k0 k); [congruence | reflexivity].
    + apply Hfg in Ef. rewrite Ef. reflexivity.
Qed.

Variable am : list value -> list value -> list value.

Lemma keys_copy_target (t : obj) :
  NoDup (object_keys t) ->
  object_keys (copy_target am (VObj t)) = object_keys t.
Proof.
  intro Hnd. cbn [copy_target].
  rewrite (keys_assign_each _ (fun _ => true) _ _ Hnd).
  - cbn [app andb]. apply forallb_filter_id. apply forallb_forall.
    intros k _. reflexivity.
  - intros key v. split; discriminate.
Qed.

(** The keys of a merged object: the target's, in the target's order,
    then the source's new ones that no object inherits, in the source's
    order. *)
Lemma keys_deepmerge (t s : obj) :
  NoDup (object_keys t) -> NoDup (object_keys s) ->
  keys (deepmerge am (VObj t) (VObj s))
  = object_keys t
    ++ filter (fun k => negb (has_own t k) && negb (inherited k))
         (object_keys s).
Proof.
  intros Ht Hs. rewrite deepmerge_object by discriminate.
  cbn [keys]. unfold mergeObject.
  rewrite (keys_assign_each _ (fun k => negb (propertyIsUnsafe (VObj t) k))
             _ _ Hs).
  - rewrite (keys_copy_target _ Ht). f_equal. apply filter_ext. intro k.
    rewrite copy_target_has_own.
    unfold propertyIsUnsafe, propertyIsOnObject.
    destruct (has_own t k), (inherited k); reflexivity.
  - intros key v. destruct (propertyIsUnsafe (VObj t) key); cbn [negb].
    + split; reflexivity.
    + destruct (propertyIsOnObject (VObj t) key && isMergeableObject v);
        split; discriminate.
Qed.

End KeyOrder.

(** ** The merger on whole profiles *)

Section WholeProfiles.

Context {chroma : Chroma}.

Import Deepmerge.

(** Copying a well-formed target with stable values gives it back. *)
Lemma copy_target_stable (t : obj) :
  wf_obj t = true -> stable_values t = true ->
  copy_target arrayMerge (VObj t) = t.
Proof.
  intros Hwf Hst. cbn [copy_target].
  rewrite assign_each_append; [reflexivity | apply wf_obj_NoDup, Hwf |].
  unfold stable_values in Hst. rewrite forallb_forall in Hst.
  apply Forall_forall. intros kv Hin.
  rewrite (clone_stable _ arrayMerge_nil _ (Hst kv Hin)). reflexivity.
Qed.

(** The default profile is a well-formed object whose category records
    are stable. *)
Lemma default_profile_stable (cs : ColorScheme) :
  exists d,
    build_default_syntax cs = VObj d
    /\ wf_obj d = true
    /\ stable_values d = true.
Proof.
  eexists. split; [reflexivity|]. split; reflexivity.
Qed.

(** X1: an empty override object, which unlike a missing one is sent
    through [deepmerge], gives back a profile equal to a well-formed
    default profile with stable category values. *)
Theorem merge_syntax_empty_override (p : obj) (cs : ColorScheme) :
  syntax cs = Some [] ->
  wf_obj p = true ->
  stable_values p = true ->
  merge_syntax (VObj p) cs = VObj p.
Proof.
  intros Hs Hwf Hst. rewrite (merge_syntax_with_override _ _ _ Hs).
  rewrite deepmerge_object by discriminate.
  unfold mergeObject, assign_each. cbn [fold_left].
  rewrite (copy_target_stable _ Hwf Hst). reflexivity.
Qed.

(** X2: for a scheme whose override is the empty object, the final
    profile is the default profile. *)
Theorem build_syntax_empty_override (cs : ColorScheme) :
  syntax cs = Some [] ->
  build_syntax cs = build_default_syntax cs.
Proof.
  intro Hs. destruct (default_profile_stable cs) as (d & Hd & Hwf & Hst).
  unfold build_syntax. rewrite Hd, (merge_syntax_with_override _ _ _ Hs).
  rewrite deepmerge_object by discriminate.
  unfold mergeObject, assign_each. cbn [fold_left].
  rewrite (copy_target_stable _ Hwf Hst). reflexivity.
Qed.

(** X3: when neither the default profile nor the override has an
    index-like key, [Object.keys] of the merged profile lists the
    default's keys in the default's order, then the override's keys
    that the default lacks and no object inherits, in the override's
    order. *)
Theorem merge_syntax_key_order (p ov : obj) (cs : ColorScheme) :
  syntax cs = Some ov ->
  wf_obj p = true ->
  wf_obj ov = true ->
  no_index_keys p = true ->
  no_index_keys ov = true ->
  keys (merge_syntax (VObj p) cs)
  = object_keys p
    ++ filter (fun k => negb (has_own p k) && negb (inherited k))
         (object_keys ov).
Proof.
  intros Hs Hp Hov _ _. rewrite (merge_syntax_with_override _ _ _ Hs).
  apply keys_deepmerge; apply wf_obj_NoDup; assumption.
Qed.

(** X4: whatever the override holds, the final profile has a key
    exactly when the default profile has it or the override has it
    and no object inherits it; so no category of the default is ever
    dropped. *)
Theorem build_syntax_categories
    (cs : ColorScheme) (ov : obj) (k : string) :
  syntax cs = Some ov ->
  present (build_syntax cs) k
  = present (build_default_syntax cs) k
    || (negb (inherited k) && has_own ov k).
Proof.
  intro Hs. destruct (default_profile_stable cs) as (d & Hd & _ & _).
  unfold build_syntax. rewrite Hd, (merge_syntax_with_override _ _ _ Hs).
  rewrite deepmerge_present. unfold present. cbn [prop].
  fold (has_own d k).
  unfold propertyIsUnsafe, propertyIsOnObject.
  destruct (has_own d k), (inherited k); reflexivity.
Qed.

(** X5: within a category that is a record in both the default and the
    override, each attribute is the override's when the override's
    record has it (a primitive), and the default's otherwise. *)
Theorem merge_syntax_attribute_union
    (p ov : obj) (cs : ColorScheme) (C a : string) (d r : obj) :
  syntax cs = Some ov ->
  wf_obj ov = true ->
  get p C = Some (VObj d) -> wf_obj d = true ->
  get ov C = Some (VObj r) -> wf_obj r = true ->
  inherited a = false ->
  (forall x, get r a = Some x -> isMergeableObject x = false) ->
  (forall v, get d a = Some v -> stable v = true) ->
  attr (merge_syntax (VObj p) cs) C a
  = match get r a with
    | Some x => Some x
    | None => get d a
    end.
Proof.
  intros Hs Hov Hd Hwd Hr Hwr Ha Hprim Hst.
  rewrite (merge_syntax_with_override _ _ _ Hs). unfold attr.
  rewrite (deepmerge_nested _ _ _ _ _ _ Hov Hd Hr).
  destruct (get r a) as [x|] eqn:Hra.
  - apply deepmerge_primitive; auto.
  - rewrite (deepmerge_untouched _ _ _ _ Hwd Hwr Hra).
    destruct (get d a) as [v|] eqn:Hda; [|reflexivity].
    cbn [option_map].
    rewrite (clone_stable _ arrayMerge_nil _ (Hst v eq_refl)). reflexivity.
Qed.

(** X6: an override entry that is no record replaces the default's
    category outright: a primitive (a string, a boolean, [undefined])
    whatever the default has, an array when the default's category is
    a record. *)
Theorem merge_syntax_replaces_by_non_record
    (p ov : obj) (cs : ColorScheme) (C : string) (t x : value) :
  syntax cs = Some ov ->
  wf_obj ov = true ->
  get p C = Some t ->
  get ov C = Some x ->
  (isMergeableObject x = false ->
   prop (merge_syntax (VObj p) cs) C = Some x)
  /\ (forall l d, x = VArr l -> t = VObj d ->
      prop (merge_syntax (VObj p) cs) C = Some (VArr l)).
Proof.
  intros Hs Hov Ht Hx. rewrite (merge_syntax_with_override _ _ _ Hs).
  apply wf_obj_NoDup in Hov.
  assert (Hown : has_own p C = true)
    by (unfold has_own; rewrite Ht; reflexivity).
  rewrite deepmerge_object by discriminate. cbn [prop].
  rewrite (mergeObject_get _ _ _ _ Hov), Hx, (own_is_safe _ _ Hown).
  split.
  - intro Hprim. rewrite Hprim, andb_false_r.
    rewrite (clone_primitive _ _ Hprim). reflexivity.
  - intros l d -> ->. unfold propertyIsOnObject. rewrite Hown.
    cbn [orb andb isMergeableObject]. unfold target_prop. cbn [prop].
    rewrite Ht. reflexivity.
Qed.

(** X7: an optional category the builder leaves out and the override
    supplies with a stable value is in the final profile with that
    value. *)
Theorem optional_category_from_override
    (cs : ColorScheme) (ov : obj) (k : string) (v : value) :
  syntax cs = Some ov ->
  wf_obj ov = true ->
  In k unassigned_categories ->
  get ov k = Some v ->
  stable v = true ->
  prop (build_syntax cs) k = Some v.
Proof.
  intros Hs Hov Hin Hk Hv.
  destruct (default_profile_shape cs) as (d & Hd & _ & _ & Hopt).
  rewrite Forall_forall in Hopt. specialize (Hopt k Hin).
  assert (Hfresh : inherited k = false).
  { cbn [unassigned_categories In] in Hin.
    repeat (destruct Hin as [<-|Hin]; [reflexivity|]). contradiction. }
  unfold build_syntax. rewrite Hd, (merge_syntax_with_override _ _ _ Hs).
  rewrite (deepmerge_new_key _ _ _ _ _ Hov Hopt Hk), Hfresh.
  rewrite (clone_stable _ arrayMerge_nil _ Hv). reflexivity.
Qed.

End WholeProfiles.

(** ** The default profile, category by category *)

Section DefaultProfileTable.

Context {chroma : Chroma}.
Variable cs : ColorScheme.

(** X8: the colours of the remaining categories: title has the
    primary colour, emphasis and "emphasis.strong" the blue ramp at
    0.5, "string.special.symbol" and "string.regex" the orange ramp at
    0.5. *)
Theorem default_remaining_colors :
  category_color (build_default_syntax cs) "title"
  = sample (neutral (ramps cs)) 1%float
  /\ Forall
       (fun c =>
          category_color (build_default_syntax cs) c
          = sample (blue (ramps cs)) 0.5%float)
       ["emphasis"; "emphasis.strong"]
  /\ Forall
       (fun c =>
          category_color (build_default_syntax cs) c
          = sample (orange (ramps cs)) 0.5%float)
       ["string.special.symbol"; "string.regex"].
Proof.
  repeat match goal with |- _ /\ _ => split end;
    try (repeat (apply Forall_cons || apply Forall_nil)); reflexivity.
Qed.

(** X9: over the whole closed set of [Syntax] keys, the default
    profile sets italic on predictive and link_text only, a weight
    (bold) on "emphasis.strong" and title only, and underline on
    link_uri only; no other category has any of the three flags. *)
Theorem default_flags :
  Forall
    (fun c =>
       attr (build_default_syntax cs) c "italic"
       = (if mem_string c ["predictive"; "link_text"]
          then Some (VBool true) else None)
       /\ attr (build_default_syntax cs) c "weight"
          = (if mem_string c ["emphasis.strong"; "title"]
             then Some (VStr font_weights.bold) else None)
       /\ attr (build_default_syntax cs) c "underline"
          = (if mem_string c ["link_uri"]
             then Some (VBool true) else None))
    syntax_categories.
Proof.
  cbv [syntax_categories required_categories optional_categories app].
  repeat (apply Forall_cons || apply Forall_nil);
    (split; [|split]); reflexivity.
Qed.

End DefaultProfileTable.

(** ** Merging the same override twice *)

Section MergeTwice.

Import Deepmerge.

Lemma get_In (o : obj) (k : string) (v : value) :
  get o k = Some v -> In (k, v) o.
Proof.
  induction o as [|[k0 v0] o IH]; simpl; [discriminate|].
  destruct (String.eqb_spec k0 k) as [->|Hne].
  - intro H. injection H as ->. left. reflexivity.
  - intro H. right. apply IH. exact H.
Qed.

Lemma has_own_key (o : obj) (k : string) :
  In k (object_keys o) -> has_own o k = true.
Proof.
  intro H. unfold has_own. destruct (get o k) eqn:E; [reflexivity|].
  apply get_None_iff in E. contradiction.
Qed.

Lemma In_set_prop (o : obj) (k0 : string) (v0 : value) (kv : string * value) :
  In kv (set_prop o k0 v0) -> In kv o \/ kv = (k0, v0).
Proof.
  induction o as [|[k1 v1] o IH]; simpl.
  - intros [<-|[]]. right. reflexivity.
  - destruct (String.eqb_spec k1 k0) as [->|Hne]; simpl.
    + intros [<-|H]; [right; reflexivity | left; right; exact H].
    + intros [<-|H]; [left; left; reflexivity|].
      destruct (IH H) as [H'|H']; [left; right; exact H' | right; exact H'].
Qed.

(** A property a loop leaves was in the destination or was assigned
    from a property of the source. *)
Lemma In_assign_each (f : string -> value -> option value)
    (props dest : obj) (k : string) (y : value) :
  In (k, y) (assign_each f props dest) ->
  In (k, y) dest \/ exists v, In (k, v) props /\ f k v = Some y.
Proof.
  unfold assign_each. revert dest.
  induction props as [|[k0 v0] props IH]; simpl; intros dest H.
  - left. exact H.
  - destruct (IH _ H) as [Hd|(v & Hin & Hf)].
    + destruct (f k0 v0) as [v'|] eqn:Ef.
      * destruct (In_set_prop _ _ _ _ Hd) as [Hd'|Heq].
        -- left. exact Hd'.
        -- injection Heq as -> ->. right. exists v0.
           split; [left; reflexivity | exact Ef].
      * left. exact Hd.
    + right. exists v. split; [right; exact Hin | exact Hf].
Qed.

Lemma NoDup_set_prop (o : obj) (k : string) (v : value) :
  NoDup (object_keys o) -> NoDup (object_keys (set_prop o k v)).
Proof.
  intro H. rewrite keys_set_prop. destruct (has_own o k) eqn:E.
  - exact H.
  - apply NoDup_app.
    + exact H.
    + repeat constructor. intros [].
    + intros x Hx [<-|[]]. apply get_None_iff in Hx; [exact Hx|].
      unfold has_own in E. destruct (get o k); [discriminate | reflexivity].
Qed.

(** A property loop keeps the keys of its destination distinct. *)
Lemma NoDup_assign_each (f : string -> value -> option value)
    (props dest : obj) :
  NoDup (object_keys dest) ->
  NoDup (object_keys (assign_each f props dest)).
Proof.
  unfold assign_each. revert dest.
  induction props as [|[k0 v0] props IH]; simpl; intros dest H.
  - exact H.
  - apply IH. destruct (f k0 v0); [apply NoDup_set_prop|]; exact H.
Qed.

(** Two objects with the same keys in the same order and the same
    value under each key are equal. *)
Lemma obj_ext (o1 o2 : obj) :
  object_keys o1 = object_keys o2 ->
  NoDup (object_keys o1) ->
  (forall k, get o1 k = get o2 k) ->
  o1 = o2.
Proof.
  revert o2. induction o1 as [|[k1 v1] o1 IH]; intros [|[k2 v2] o2];
    simpl; intros Hkeys Hnd Hget; try discriminate.
  - reflexivity.
  - injection Hkeys as <- Hkeys. inversion Hnd as [|? ? Hk1 Hnd']; subst.
    pose proof (Hget k1) as H1. rewrite String.eqb_refl in H1.
    injection H1 as <-. f_equal. apply IH; [exact Hkeys | exact Hnd' |].
    intro k. specialize (Hget k).
    destruct (String.eqb_spec k1 k) as [Heq|Hne]; [|exact Hget].
    assert (H2 : ~ In k1 (object_keys o2)) by (rewrite <- Hkeys; exact Hk1).
    apply get_None_iff in Hk1, H2. rewrite <- Heq. congruence.
Qed.

Lemma filter_none {A : Type} (f : A -> bool) (l : list A) :
  (forall x, In x l -> f x = false) -> filter f l = [].
Proof.
  induction l as [|x l IH]; simpl; intro H; [reflexivity|].
  rewrite (H x (or_introl eq_refl)). apply IH.
  intros y Hy. apply H. right. exact Hy.
Qed.

Variable am : list value -> list value -> list value.
Hypothesis am_nil : forall l, am [] l = l.

(** What [clone] returns is stable, so cloning twice is cloning once. *)
Lemma clone_is_stable (v : value) : stable (clone am v) = true.
Proof.
  induction v as [| | |l _|props IH] using value_ind; try reflexivity.
  cbn [clone stable]. apply andb_true_iff. split.
  - apply distinct_NoDup. apply NoDup_assign_each. constructor.
  - apply forallb_forall. intros [k y] Hin.
    apply In_assign_each in Hin as [[]|(v & Hv & Hf)].
    cbn [fst snd]. rewrite unsafe_on_empty in Hf.
    destruct (inherited k); [discriminate|]. injection Hf as <-.
    rewrite Forall_forall in IH. exact (IH (k, v) Hv).
Qed.

Lemma clone_clone (v : value) : clone am (clone am v) = clone am v.
Proof. apply clone_stable; [exact am_nil | apply clone_is_stable]. Qed.

Lemma copy_target_fixed (t : value) (k : string) (y : value) :
  get (copy_target am t) k = Some y -> clone am y = y.
Proof.
  destruct t; cbn [copy_target get]; try discriminate.
  intro H. apply get_In, In_assign_each in H as [[]|(v & _ & Hf)].
  injection Hf as <-. apply clone_clone.
Qed.

Lemma copy_target_NoDup (t : value) :
  NoDup (object_keys (copy_target am t)).
Proof.
  destruct t; cbn [copy_target]; try constructor.
  apply NoDup_assign_each. constructor.
Qed.

Lemma mergeObject_NoDup (t : value) (s : obj) :
  NoDup (object_keys (mergeObject am t s)).
Proof. apply NoDup_assign_each. apply copy_target_NoDup. Qed.

(** Merging a source into the result of merging it changes nothing,
    when that holds of each of its mergeable values. *)
Lemma mergeObject_again (t : value) (s : obj) :
  (forall l, t <> VArr l) ->
  NoDup (object_keys s) ->
  Forall
    (fun kv =>
       isMergeableObject (snd kv) = true ->
       forall tk,
         deepmerge am (deepmerge am tk (snd kv)) (snd kv)
         = deepmerge am tk (snd kv))
    s ->
  mergeObject am (VObj (mergeObject am t s)) s = mergeObject am t s.
Proof.
  intros Ht Hs IH. rewrite Forall_forall in IH.
  set (M := mergeObject am t s).
  assert (HM : NoDup (object_keys M)) by apply mergeObject_NoDup.
  assert (Hown : forall k,
             has_own M k
             = has_own (copy_target am t) k
               || (negb (propertyIsUnsafe t k) && has_own s k))
    by (intro k; apply mergeObject_has_own).
  assert (HgetM : forall k,
             get M k
             = match get s k with
               | Some v =>
                   if propertyIsUnsafe t k then get (copy_target am t) k
                   else if propertyIsOnObject t k && isMergeableObject v
                   then Some (deepmerge am (target_prop t k) v)
                   else Some (clone am v)
               | None => get (copy_target am t) k
               end)
    by (intro k; apply mergeObject_get; exact Hs).
  assert (Hunsafe : forall k,
             propertyIsUnsafe t k = true ->
             has_own (copy_target am t) k = false /\ inherited k = true).
  { intros k Hu. unfold propertyIsUnsafe, propertyIsOnObject in Hu.
    destruct t; try discriminate Hu.
    rewrite copy_target_has_own.
    destruct (has_own l k); [rewrite andb_false_r in Hu; discriminate|].
    cbn [orb negb] in Hu. rewrite andb_true_r in Hu. split; [reflexivity|].
    exact Hu. }
  apply obj_ext.
  - pose proof (keys_deepmerge am M s HM Hs) as Hkeys.
    rewrite deepmerge_object in Hkeys by discriminate. cbn [keys] in Hkeys.
    rewrite Hkeys, filter_none; [apply app_nil_r|].
    intros k Hin. apply has_own_key in Hin.
    rewrite Hown, Hin, andb_true_r.
    destruct (propertyIsUnsafe t k) eqn:Hu.
    + destruct (Hunsafe k Hu) as [_ ->]. apply andb_false_r.
    + rewrite orb_true_r. reflexivity.
  - apply mergeObject_NoDup.
  - intro k. rewrite (mergeObject_get _ _ _ _ Hs).
    assert (Hcopy : get (copy_target am (VObj M)) k = get M k
                    \/ get s k <> None /\ propertyIsUnsafe t k = false).
    { rewrite (copy_target_get _ _ _ HM), (HgetM k).
      destruct (get s k) as [v|] eqn:Hsk.
      - destruct (propertyIsUnsafe t k) eqn:Hu.
        + left. destruct (get (copy_target am t) k) as [y|] eqn:Hy;
            [|reflexivity].
          cbn [option_map]. rewrite (copy_target_fixed _ _ _ Hy).
          reflexivity.
        + right. split; [discriminate | reflexivity].
      - left. destruct (get (copy_target am t) k) as [y|] eqn:Hy;
          [|reflexivity].
        cbn [option_map]. rewrite (copy_target_fixed _ _ _ Hy).
        reflexivity. }
    destruct (get s k) as [v|] eqn:Hsk.
    + destruct (propertyIsUnsafe t k) eqn:Hu.
      * destruct (Hunsafe k Hu) as [Hnot Hinh].
        assert (HownM : has_own M k = false)
          by (rewrite Hown, Hnot, Hu; reflexivity).
        unfold propertyIsUnsafe, propertyIsOnObject.
        rewrite HownM, Hinh. cbn [orb negb andb].
        destruct Hcopy as [Hc|[_ Hc]]; [exact Hc | discriminate Hc].
      * assert (HownM : has_own M k = true).
        { rewrite Hown, Hu. cbn [negb andb].
          unfold has_own at 2. rewrite Hsk. apply orb_true_r. }
        rewrite (own_is_safe _ _ HownM).
        unfold propertyIsOnObject. rewrite HownM. cbn [orb andb].
        unfold target_prop at 1. cbn [prop].
        rewrite (HgetM k), Hsk, Hu.
        destruct (isMergeableObject v) eqn:Hm.
        -- pose proof (IH (k, v) (get_In _ _ _ Hsk) Hm) as IHv.
           cbn [snd] in IHv.
           destruct (propertyIsOnObject t k); cbn [andb].
           ++ rewrite IHv. reflexivity.
           ++ rewrite (clone_is_deepmerge _ _ Hm), IHv. reflexivity.
        -- rewrite andb_false_r, (clone_primitive _ _ Hm).
           reflexivity.
    + destruct Hcopy as [Hc|[Hc _]]; [exact Hc | contradiction].
Qed.

(** Merging an array-free source twice is merging it once. *)
Lemma deepmerge_twice (v : value) :
  array_free v = true ->
  isMergeableObject v = true ->
  forall t,
    deepmerge am (deepmerge am t v) v = deepmerge am t v.
Proof.
  induction v as [| | |l _|props IH] using value_ind;
    intros Hfree Hm t; try discriminate.
  cbn [array_free] in Hfree. apply andb_true_iff in Hfree as [Hwf Hall].
  apply wf_obj_NoDup in Hwf. rewrite forallb_forall in Hall.
  assert (Hstep : Forall
            (fun kv =>
               isMergeableObject (snd kv) = true ->
               forall tk,
                 deepmerge am (deepmerge am tk (snd kv)) (snd kv)
                 = deepmerge am tk (snd kv))
            props).
  { rewrite Forall_forall in IH |- *. intros kv Hin Hmv.
    apply (IH kv Hin (Hall kv Hin) Hmv). }
  assert (Hfirst : exists t',
             (forall l, t' <> VArr l)
             /\ deepmerge am t (VObj props)
                = VObj (mergeObject am t' props)).
  { destruct t as [| | |l|o].
    - exists VUndef. split; [discriminate | reflexivity].
    - exists (VBool b). split; [discriminate | reflexivity].
    - exists (VStr s). split; [discriminate | reflexivity].
    - exists (VObj []). split; [discriminate|].
      change (deepmerge am (VArr l) (VObj props))
        with (clone am (VObj props)).
      rewrite clone_is_deepmerge by reflexivity. reflexivity.
    - exists (VObj o). split; [discriminate | reflexivity]. }
  destruct Hfirst as (t' & Ht' & ->).
  rewrite deepmerge_object by discriminate.
  rewrite (mergeObject_again _ _ Ht' Hwf Hstep). reflexivity.
Qed.

End MergeTwice.

Section MergeSyntaxTwice.

Context {chroma : Chroma}.

Import Deepmerge.

(** A mergeable value under an own key of the target is merged with
    what the target has there. *)
Lemma deepmerge_nested_mergeable
    (p ov : obj) (k : string) (t x : value) :
  wf_obj ov = true ->
  get p k = Some t ->
  get ov k = Some x ->
  isMergeableObject x = true ->
  prop (deepmerge arrayMerge (VObj p) (VObj ov)) k
  = Some (deepmerge arrayMerge t x).
Proof.
  intros Hov Hp Hx Hm. apply wf_obj_NoDup in Hov.
  assert (Hown : has_own p k = true)
    by (unfold has_own; rewrite Hp; reflexivity).
  rewrite deepmerge_object by discriminate. cbn [prop].
  rewrite (mergeObject_get _ _ _ _ Hov), Hx, (own_is_safe _ _ Hown).
  unfold propertyIsOnObject. rewrite Hown, Hm. cbn [orb andb].
  unfold target_prop. cbn [prop]. rewrite Hp. reflexivity.
Qed.

(** X10: merging an array-free override into a profile that already
    went through the same merge changes nothing, whatever the profile
    was. *)
Theorem merge_syntax_twice (P : value) (cs : ColorScheme) (ov : obj) :
  syntax cs = Some ov ->
  array_free (VObj ov) = true ->
  merge_syntax (merge_syntax P cs) cs = merge_syntax P cs.
Proof.
  intros Hs Hfree. unfold merge_syntax. rewrite Hs.
  apply deepmerge_twice; [exact arrayMerge_nil | exact Hfree | reflexivity].
Qed.

(** X11: with an attribute that is an array in the default and in the
    override, merging the same override a second time appends the
    override's elements a second time. *)
Theorem merge_syntax_twice_appends_twice
    (p ov : obj) (cs : ColorScheme) (C a : string) (d r : obj)
    (xs ys : list value) :
  syntax cs = Some ov ->
  wf_obj ov = true ->
  get p C = Some (VObj d) ->
  get ov C = Some (VObj r) -> wf_obj r = true ->
  get d a = Some (VArr xs) ->
  get r a = Some (VArr ys) ->
  attr (merge_syntax (merge_syntax (VObj p) cs) cs) C a
  = Some (VArr ((xs ++ ys) ++ ys)).
Proof.
  intros Hs Hov Hd HC Hr Hxs Hys. unfold merge_syntax. rewrite Hs.
  pose proof (deepmerge_nested_mergeable _ _ _ _ _ Hov Hd HC eq_refl)
    as Hfirst.
  pose proof (deepmerge_nested_mergeable _ _ _ _ _ Hr Hxs Hys eq_refl)
    as Hinner.
  rewrite (deepmerge_object _ (VObj p)) in Hfirst |- * by discriminate.
  rewrite (deepmerge_object _ (VObj d)) in Hfirst, Hinner by discriminate.
  cbn [prop] in Hfirst, Hinner. unfold attr.
  rewrite (deepmerge_nested_mergeable _ _ _ _ _ Hov Hfirst HC eq_refl).
  apply (deepmerge_nested_mergeable _ _ _ _ _ Hr Hinner Hys eq_refl).
Qed.

End MergeSyntaxTwice.

(** ** Which categories the default profile has *)

Section DefaultProfileCategories.

Context {chroma : Chroma}.
Variable cs : ColorScheme.

Lemma has_own_mem (o : obj) (k : string) :
  has_own o k = mem_string k (object_keys o).
Proof.
  induction o as [|[k0 v0] o IH]; [reflexivity|].
  rewrite has_own_cons, IH. reflexivity.
Qed.

(** The keys the builder's literal lists are the [Syntax] keys less
    the unassigned ones. *)
Lemma assigned_keys (k : string) :
  mem_string k (keys (build_default_syntax cs))
  = mem_string k syntax_categories
    && negb (mem_string k unassigned_categories).
Proof.
  assert (Hto : mem_string k (keys (build_default_syntax cs)) = true ->
                mem_string k syntax_categories
                && negb (mem_string k unassigned_categories) = true).
  { intro H. apply mem_string_In in H.
    lazy in H. repeat (destruct H as [<-|H]; [reflexivity|]).
    contradiction. }
  assert (Hfrom : mem_string k syntax_categories = true ->
                  mem_string k unassigned_categories = false ->
                  mem_string k (keys (build_default_syntax cs)) = true).
  { intros H Hun. apply mem_string_In in H.
    lazy in H.
    repeat (destruct H as [<-|H];
            [first [reflexivity | discriminate Hun]|]).
    contradiction. }
  destruct (mem_string k (keys (build_default_syntax cs))) eqn:E.
  - symmetry. apply Hto. reflexivity.
  - destruct (mem_string k syntax_categories) eqn:Ec; [|reflexivity].
    destruct (mem_string k unassigned_categories) eqn:Eu; [reflexivity|].
    discriminate (Hfrom eq_refl eq_refl).
Qed.

(** Every category of the default profile is a record that starts
    with a sampled colour. *)
Lemma assigned_categories_have_colors :
  exists d,
    build_default_syntax cs = VObj d
    /\ Forall
         (fun kv =>
            exists c r, snd kv = VObj (("color", VStr (hex c)) :: r))
         d.
Proof.
  eexists. split; [reflexivity|].
  lazy. repeat (apply Forall_cons || apply Forall_nil);
    eexists; eexists; reflexivity.
Qed.

(** X12: the default profile has a key exactly when it is a [Syntax]
    key other than the eight optional ones the builder leaves out, so
    it has no key outside the closed set; and each category it has
    carries a colour that is the hex rendering of some colour. *)
Theorem default_profile_categories (k : string) :
  present (build_default_syntax cs) k
  = mem_string k syntax_categories
    && negb (mem_string k unassigned_categories)
  /\ (present (build_default_syntax cs) k = true ->
      exists c : Color,
        category_color (build_default_syntax cs) k = Some (VStr (hex c))).
Proof.
  split.
  - rewrite <- assigned_keys.
    destruct (default_profile_stable cs) as (d & Hd & _ & _).
    rewrite Hd. unfold present. cbn [prop keys].
    fold (has_own d k). apply has_own_mem.
  - destruct assigned_categories_have_colors as (d & Hd & Hall).
    rewrite Hd. unfold present, category_color, attr. cbn [prop].
    destruct (get d k) as [v|] eqn:Hk; [|discriminate]. intros _.
    rewrite Forall_forall in Hall.
    destruct (Hall (k, v) (get_In _ _ _ Hk)) as (c & r & Hv).
    cbn [snd] in Hv. subst v. exists c. cbn [prop get].
    reflexivity.
Qed.

End DefaultProfileCategories.

(** ** The further properties at the reference scheme *)

Section ReferenceSchemeFurther.

Import Reference.

Lemma merge_syntax_empty_override_witness :
  @merge_syntax chroma (VObj default_props) empty_override_scheme
  = VObj default_props.
Proof.
  apply (@merge_syntax_empty_override chroma); reflexivity.
Defined.

Lemma build_syntax_empty_override_witness :
  @build_syntax chroma empty_override_scheme
  = @build_default_syntax chroma empty_override_scheme.
Proof.
  apply (@build_syntax_empty_override chroma). reflexivity.
Defined.

Lemma merge_syntax_key_order_witness :
  keys (@merge_syntax chroma (VObj default_props) (scheme_with mixed_override))
  = object_keys default_props ++ ["foo"; "type.builtin"].
Proof.
  rewrite (@merge_syntax_key_order chroma default_props mixed_override
             (scheme_with mixed_override)
             eq_refl eq_refl eq_refl eq_refl eq_refl).
  reflexivity.
Defined.

Lemma build_syntax_categories_witness :
  present (@build_syntax chroma (scheme_with mixed_override)) "type.builtin"
  = true
  /\ present (@build_syntax chroma (scheme_with mixed_override)) "toString"
     = false.
Proof.
  split;
    rewrite (@build_syntax_categories chroma (scheme_with mixed_override)
               mixed_override _ eq_refl);
    reflexivity.
Defined.

Lemma merge_syntax_attribute_union_witness :
  attr (@merge_syntax chroma (VObj default_props) (scheme_with mixed_override))
    "comment" "italic" = Some (VBool true)
  /\ attr (@merge_syntax chroma (VObj default_props)
            (scheme_with mixed_override))
       "comment" "color" = Some (VStr "#B4B8C0").
Proof.
  split.
  - rewrite (@merge_syntax_attribute_union chroma
               default_props mixed_override (scheme_with mixed_override)
               "comment" "italic"
               [("color", VStr "#B4B8C0")]
               [("italic", VBool true); ("weight", VStr "bold")]);
      try reflexivity.
    + intros x Hx. injection Hx as <-. reflexivity.
    + intros v Hv. discriminate Hv.
  - rewrite (@merge_syntax_attribute_union chroma
               default_props mixed_override (scheme_with mixed_override)
               "comment" "color"
               [("color", VStr "#B4B8C0")]
               [("italic", VBool true); ("weight", VStr "bold")]);
      try reflexivity.
    + intros x Hx. discriminate Hx.
    + intros v Hv. injection Hv as <-. reflexivity.
Defined.

Lemma merge_syntax_replaces_by_non_record_witness :
  prop (@merge_syntax chroma (VObj default_props) (scheme_with mixed_override))
    "keyword" = Some (VStr "#FF0000").
Proof.
  apply (@merge_syntax_replaces_by_non_record chroma
           default_props mixed_override (scheme_with mixed_override)
           "keyword" (VObj [("color", VStr "#3B82F6")]) (VStr "#FF0000"));
    reflexivity.
Defined.

Lemma optional_category_from_override_witness :
  prop (@build_syntax chroma (scheme_with mixed_override)) "type.builtin"
  = Some (VObj [("color", VStr "#0000FF")]).
Proof.
  apply (@optional_category_from_override chroma
           (scheme_with mixed_override) mixed_override);
    try reflexivity.
  cbn [unassigned_categories In]. tauto.
Defined.

Lemma merge_syntax_twice_witness :
  @merge_syntax chroma
    (@merge_syntax chroma (VObj default_props) (scheme_with recolouring))
    (scheme_with recolouring)
  = @merge_syntax chroma (VObj default_props) (scheme_with recolouring).
Proof.
  apply (@merge_syntax_twice chroma _ _ recolouring); reflexivity.
Defined.

Lemma merge_syntax_twice_appends_twice_witness :
  attr (@merge_syntax chroma
          (@merge_syntax chroma (VObj profile_with_list)
             (scheme_with override_with_list))
          (scheme_with override_with_list)) "comment" "features"
  = Some (VArr [VStr "liga"; VStr "calt"; VStr "zero";
                VStr "calt"; VStr "zero"]).
Proof.
  apply (@merge_syntax_twice_appends_twice chroma
           profile_with_list override_with_list
           (scheme_with override_with_list) "comment" "features"
           [("color", VStr "#B4B8C0"); ("features", VArr [VStr "liga"])]
           [("features", VArr [VStr "calt"; VStr "zero"])]
           [VStr "liga"] [VStr "calt"; VStr "zero"]);
    reflexivity.
Defined.

End ReferenceSchemeFurther.
